(** * LaTeX2AI: the global settings object ([src/l2a_global.cpp])

    A shallow embedding of [L2A::GLOBAL::Global]: its six persisted fields,
    their encoding into and decoding from a [ParameterList], the two
    validation predicates, the two interactive repair-setters, the
    constructor and the process-wide accessors.

    Strings ([ai::UnicodeString]) are [string]; the parameter list is a finite
    map from keys to textual values; every call into a collaborator (command
    execution, alerts and dialogs, file system) goes through an explicit
    [Host] interface and is recorded, with its answer, in a log. *)

From Stdlib Require Import ZArith Ascii String DecimalString.
From stdpp Require Import base tactics option list gmap strings.

Set Default Proof Using "Type".

(** ** Strings *)

(** The double-quote character, which the C++ source writes as an escaped
    character literal. *)
Definition dquote : string := String (ascii_of_nat 34) EmptyString.

(** [ai::UnicodeString::find]: the position of the first occurrence of [pat]
    in [s], counted from [i]; [None] stands for [npos]. *)
Fixpoint find_from (pat s : string) (i : nat) : option nat :=
  if String.prefix pat s then Some i
  else match s with
       | EmptyString => None
       | String _ s' => find_from pat s' (S i)
       end.

Definition find (s pat : string) : option nat := find_from pat s 0.

(** [s.find(pat) != std::string::npos] *)
Definition found (s pat : string) : bool :=
  match find s pat with Some _ => true | None => false end.

(** [pat] occurs in [s] as a block of consecutive characters. *)
Definition substring_of (pat s : string) : Prop :=
  exists pre post : string, s = pre +:+ pat +:+ post.

(** ** Paths *)

(** [ai::FilePath], represented by the full path it denotes. *)
Record FilePath := mkFilePath { GetFullPath : string }.

(** [ai::FilePath::IsEmpty] *)
Definition IsEmpty (p : FilePath) : bool :=
  match GetFullPath p with EmptyString => true | String _ _ => false end.

#[global] Instance FilePath_eq_dec : EqDecision FilePath.
Proof. solve_decision. Defined.

(** ** Parameter lists *)

Module ParameterList.

(** Modelled from the spec: the class [L2A::UTIL::ParameterList]
    (l2a_parameter_list.h) is not part of the sources at hand.  The spec
    describes the settings document as a flat key/value map whose values
    are strings, integers standing for booleans, or paths written as
    strings; every value is kept in its textual form. *)
Definition t : Type := gmap string string.

(** Modelled from the spec: [OptionExists] of the missing class. *)
Definition OptionExists (key : string) (pl : t) : bool :=
  bool_decide (is_Some (pl !! key)).

(** Modelled from the spec: [GetStringOption] of the missing class.  The
    source only ever calls it under an [OptionExists] guard. *)
Definition GetStringOption (key : string) (pl : t) : string :=
  default EmptyString (pl !! key).

(** Modelled from the spec: [SetOption] for a string value. *)
Definition SetOption (key value : string) (pl : t) : t :=
  <[key := value]> pl.

(** Modelled from the spec: [SetOption] for a path, stored as its string. *)
Definition SetOption_path (key : string) (value : FilePath) (pl : t) : t :=
  SetOption key (GetFullPath value) pl.

Section Conversions.
(** [L2A::UTIL::IntegerToString] and [L2A::UTIL::StringToInteger]
    (l2a_string_functions.h), which are not part of the sources at hand,
    are parameters. *)
Variable IntegerToString : Z -> string.
Variable StringToInteger : string -> Z.

(** Modelled from the spec: [SetOption] for an integer. *)
Definition SetOption_int (key : string) (value : Z) (pl : t) : t :=
  SetOption key (IntegerToString value) pl.

(** Modelled from the spec: [SetOption] called with a [bool], which C++
    promotes to the integer [0] or [1]. *)
Definition SetOption_bool (key : string) (value : bool) (pl : t) : t :=
  SetOption_int key (Z.b2z value) pl.

(** Modelled from the spec: [GetIntOption] of the missing class. *)
Definition GetIntOption (key : string) (pl : t) : Z :=
  StringToInteger (GetStringOption key pl).
End Conversions.

End ParameterList.

Import ParameterList.

(** The C++ conversion [bool(n)] of an integer. *)
Definition bool_of_int (n : Z) : bool := negb (n =? 0)%Z.

(** ** The object *)

Record Global := mkGlobal {
  is_testing_ : bool;
  application_data_path_ : FilePath;
  l2a_item_last_input_ : FilePath;
  latex_bin_path_ : FilePath;
  latex_engine_ : string;
  latex_command_options_ : string;
  gs_command_ : string;
  warning_boundary_boxes_ : bool;
  warning_ai_not_saved_ : bool
}.

Definition set_is_testing_ (v : bool) (g : Global) : Global :=
  mkGlobal v (application_data_path_ g) (l2a_item_last_input_ g)
    (latex_bin_path_ g) (latex_engine_ g) (latex_command_options_ g)
    (gs_command_ g) (warning_boundary_boxes_ g) (warning_ai_not_saved_ g).

Definition set_application_data_path_ (v : FilePath) (g : Global) : Global :=
  mkGlobal (is_testing_ g) v (l2a_item_last_input_ g)
    (latex_bin_path_ g) (latex_engine_ g) (latex_command_options_ g)
    (gs_command_ g) (warning_boundary_boxes_ g) (warning_ai_not_saved_ g).

Definition set_l2a_item_last_input_ (v : FilePath) (g : Global) : Global :=
  mkGlobal (is_testing_ g) (application_data_path_ g) v
    (latex_bin_path_ g) (latex_engine_ g) (latex_command_options_ g)
    (gs_command_ g) (warning_boundary_boxes_ g) (warning_ai_not_saved_ g).

Definition set_latex_bin_path_ (v : FilePath) (g : Global) : Global :=
  mkGlobal (is_testing_ g) (application_data_path_ g) (l2a_item_last_input_ g)
    v (latex_engine_ g) (latex_command_options_ g)
    (gs_command_ g) (warning_boundary_boxes_ g) (warning_ai_not_saved_ g).

Definition set_latex_engine_ (v : string) (g : Global) : Global :=
  mkGlobal (is_testing_ g) (application_data_path_ g) (l2a_item_last_input_ g)
    (latex_bin_path_ g) v (latex_command_options_ g)
    (gs_command_ g) (warning_boundary_boxes_ g) (warning_ai_not_saved_ g).

Definition set_latex_command_options_ (v : string) (g : Global) : Global :=
  mkGlobal (is_testing_ g) (application_data_path_ g) (l2a_item_last_input_ g)
    (latex_bin_path_ g) (latex_engine_ g) v
    (gs_command_ g) (warning_boundary_boxes_ g) (warning_ai_not_saved_ g).

Definition set_gs_command_ (v : string) (g : Global) : Global :=
  mkGlobal (is_testing_ g) (application_data_path_ g) (l2a_item_last_input_ g)
    (latex_bin_path_ g) (latex_engine_ g) (latex_command_options_ g)
    v (warning_boundary_boxes_ g) (warning_ai_not_saved_ g).

Definition set_warning_boundary_boxes_ (v : bool) (g : Global) : Global :=
  mkGlobal (is_testing_ g) (application_data_path_ g) (l2a_item_last_input_ g)
    (latex_bin_path_ g) (latex_engine_ g) (latex_command_options_ g)
    (gs_command_ g) v (warning_ai_not_saved_ g).

Definition set_warning_ai_not_saved_ (v : bool) (g : Global) : Global :=
  mkGlobal (is_testing_ g) (application_data_path_ g) (l2a_item_last_input_ g)
    (latex_bin_path_ g) (latex_engine_ g) (latex_command_options_ g)
    (gs_command_ g) (warning_boundary_boxes_ g) v.

(** The six keys of the settings document. *)
Definition recognized_keys : list string :=
  [ "latex_bin_path"; "latex_engine"; "latex_command_options";
    "gs_command"; "warning_boundary_boxes"; "warning_ai_not_saved" ].

(** The hardcoded default values, as [GetDefaultParameterList] spells them. *)
Definition default_latex_command_options : string :=
  "-interaction nonstopmode -halt-on-error -file-line-error".

Section Serialization.
Variable IntegerToString : Z -> string.
Variable StringToInteger : string -> Z.

Local Abbreviation SetOption_bool := (SetOption_bool IntegerToString).
Local Abbreviation GetIntOption := (GetIntOption StringToInteger).

(** [Global::ToParameterList]: the list is passed by reference and
    extended in place, so it is threaded through. *)
Definition ToParameterList (this : Global) (parameter_list : ParameterList.t)
  : ParameterList.t :=
  let parameter_list := SetOption_path "latex_bin_path" (latex_bin_path_ this) parameter_list in
  let parameter_list := SetOption "latex_engine" (latex_engine_ this) parameter_list in
  let parameter_list := SetOption "latex_command_options" (latex_command_options_ this) parameter_list in
  let parameter_list := SetOption "gs_command" (gs_command_ this) parameter_list in
  let parameter_list := SetOption_bool "warning_boundary_boxes" (warning_boundary_boxes_ this) parameter_list in
  let parameter_list := SetOption_bool "warning_ai_not_saved" (warning_ai_not_saved_ this) parameter_list in
  parameter_list.

(** [Global::GetDefaultParameterList] *)
Definition GetDefaultParameterList (parameter_list : ParameterList.t)
  : ParameterList.t :=
  let parameter_list := SetOption "latex_bin_path" EmptyString parameter_list in
  let parameter_list := SetOption "latex_engine" "pdflatex" parameter_list in
  let parameter_list := SetOption "latex_command_options" default_latex_command_options parameter_list in
  let parameter_list := SetOption "gs_command" EmptyString parameter_list in
  let parameter_list := SetOption_bool "warning_boundary_boxes" true parameter_list in
  let parameter_list := SetOption_bool "warning_ai_not_saved" true parameter_list in
  parameter_list.

(** [Global::SetFromParameterList]: returns the flag [set_all] together
    with the updated object. *)
Definition SetFromParameterList (parameter_list : ParameterList.t) (this : Global)
  : bool * Global :=
  let set_all := true in
  let value := "latex_bin_path" in
  let '(set_all, this) :=
    if OptionExists value parameter_list
    then (set_all, set_latex_bin_path_ (mkFilePath (GetStringOption value parameter_list)) this)
    else (false, this) in
  let value := "latex_engine" in
  let '(set_all, this) :=
    if OptionExists value parameter_list
    then (set_all, set_latex_engine_ (GetStringOption value parameter_list) this)
    else (false, this) in
  let value := "latex_command_options" in
  let '(set_all, this) :=
    if OptionExists value parameter_list
    then (set_all, set_latex_command_options_ (GetStringOption value parameter_list) this)
    else (false, this) in
  let value := "gs_command" in
  let '(set_all, this) :=
    if OptionExists value parameter_list
    then (set_all, set_gs_command_ (GetStringOption value parameter_list) this)
    else (false, this) in
  let value := "warning_boundary_boxes" in
  let '(set_all, this) :=
    if OptionExists value parameter_list
    then (set_all, set_warning_boundary_boxes_ (bool_of_int (GetIntOption value parameter_list)) this)
    else (false, this) in
  let value := "warning_ai_not_saved" in
  let '(set_all, this) :=
    if OptionExists value parameter_list
    then (set_all, set_warning_ai_not_saved_ (bool_of_int (GetIntOption value parameter_list)) this)
    else (false, this) in
  (set_all, this).

End Serialization.

(** ** Collaborators *)

(** C++ exceptions: the project's own [L2A::ERR::Exception], raised by
    [l2a_error], and everything else. *)
Inductive exn : Type :=
| L2A_Exception (what : string)
| foreign_exception (what : string).

(** [AIErr], the error code of the host's dialog services. *)
Inductive AIErr : Type :=
| kNoErr
| kCanceledErr
| kOtherErr (code : Z).

#[global] Instance AIErr_eq_dec : EqDecision AIErr.
Proof. solve_decision. Defined.

(** [AIFileDialogFilters]: pairs of a description and a pattern. *)
Definition AIFileDialogFilters : Type := list (string * string).

(** What the environment provides: the platform the plug-in is compiled for,
    the functions of the host SDK and the helper functions of the project
    that live outside [l2a_global.cpp].  An operation that reads or changes
    the outside world takes the world and returns it. *)
Class Host (W : Type) : Type := {
  (** the preprocessor symbol [WIN_ENV] *)
  WIN_ENV : bool;
  (** [ai::FilePath::AddComponent] *)
  AddComponent : string -> FilePath -> FilePath;
  (** [L2A::UTIL::IntegerToString] and [L2A::UTIL::StringToInteger] *)
  IntegerToString : Z -> string;
  StringToInteger : string -> Z;
  (** the constructor [ParameterList(xml_string)]; [None] when it throws
      [L2A::ERR::Exception] on a document it cannot parse *)
  ParameterList_of_xml : string -> option ParameterList.t;
  (** [ParameterList::ToXMLString], given the name of the root element *)
  ToXMLString : string -> ParameterList.t -> string;
  host_CheckGithubVersion : W -> W;
  host_GetApplicationDataDirectory : W -> FilePath * W;
  host_CreateDirectoryL2A : FilePath -> W -> W;
  host_IsFile : FilePath -> W -> bool * W;
  host_IsDirectory : FilePath -> W -> bool * W;
  host_ReadFileUTF8 : FilePath -> W -> string * W;
  host_WriteFileUTF8 : FilePath -> string -> bool -> W -> W;
  host_RemoveFile : FilePath -> W -> W;
  host_ClearTemporaryDirectory : W -> W;
  host_GetGhostScriptCommand : W -> string * W;
  (** [L2A::UTIL::ExecuteCommandLine]: the captured output, or the exception
      it throws when the command cannot be run *)
  host_ExecuteCommandLine : string -> bool -> W -> (exn + string) * W;
  (** [sAIUser->WarningAlert], [OKCancelAlert], [GetFileDialog] and
      [GetDirectoryDialog]; the dialogs receive the current path and return
      the error code with the path as the user left it *)
  host_WarningAlert : string -> W -> W;
  host_OKCancelAlert : string -> bool -> W -> bool * W;
  host_GetFileDialog : string -> AIFileDialogFilters -> FilePath -> W -> (AIErr * FilePath) * W;
  host_GetDirectoryDialog : string -> FilePath -> W -> (AIErr * FilePath) * W
}.

(** One entry of the log: a call into a collaborator with its answer, or an
    assignment to one of the two toolchain fields made by the constructor
    body or by a repair-setter. *)
Inductive event : Type :=
| EvCheckGithubVersion
| EvGetApplicationDataDirectory (r : FilePath)
| EvCreateDirectoryL2A (p : FilePath)
| EvIsFile (p : FilePath) (r : bool)
| EvIsDirectory (p : FilePath) (r : bool)
| EvReadFileUTF8 (p : FilePath) (r : string)
| EvWriteFileUTF8 (p : FilePath) (text : string) (overwrite : bool)
| EvRemoveFile (p : FilePath)
| EvClearTemporaryDirectory
| EvGetGhostScriptCommand (r : string)
| EvExecuteCommandLine (cmd : string) (capture : bool) (r : exn + string)
| EvWarningAlert (msg : string)
| EvOKCancelAlert (msg : string) (dflt : bool) (r : bool)
| EvGetFileDialog (title : string) (filters : AIFileDialogFilters) (p : FilePath) (r : AIErr * FilePath)
| EvGetDirectoryDialog (title : string) (p : FilePath) (r : AIErr * FilePath)
| EvAssign_gs_command_ (v : string)
| EvAssign_latex_bin_path_ (v : FilePath).

(** ** Methods as state transformers *)

(** The object, the outside world and the log of what happened so far. *)
Record state (W : Type) : Type := mkState {
  glob : Global;
  world : W;
  log : list event
}.
Arguments mkState {W} _ _ _.
Arguments glob {W} _.
Arguments world {W} _.
Arguments log {W} _.

(** How a call ends: it returns a value, it throws, or the loop it runs has
    used up the number of rounds granted to it. *)
Inductive outcome (A : Type) : Type :=
| Ret (a : A)
| Raise (e : exn)
| OutOfFuel.
Arguments Ret {A} _.
Arguments Raise {A} _.
Arguments OutOfFuel {A}.

Definition M (W A : Type) : Type := state W -> outcome A * state W.

(** [return a] *)
Definition pure {W A} (a : A) : M W A := fun s => (Ret a, s).

(** Sequencing: an exception or the end of the fuel ends the sequence. *)
Definition bind {W A B} (m : M W A) (f : A -> M W B) : M W B := fun s =>
  match m s with
  | (Ret a, s') => f a s'
  | (Raise e, s') => (Raise e, s')
  | (OutOfFuel, s') => (OutOfFuel, s')
  end.

Declare Scope method_scope.
Delimit Scope method_scope with method.
Bind Scope method_scope with M.
Notation "x <- m ;; k" := (bind m (fun x => k))
  (at level 100, m at next level, right associativity) : method_scope.
Notation "m ;; k" := (bind m (fun _ => k))
  (at level 100, right associativity) : method_scope.
Open Scope method_scope.

(** [throw] *)
Definition raise {W A} (e : exn) : M W A := fun s => (Raise e, s).

Definition out_of_fuel {W A} : M W A := fun s => (OutOfFuel, s).

(** [try { m } catch (...) { h }] when [only_l2a] is [false], and
    [try { m } catch (L2A::ERR::Exception&) { h }] when it is [true]. *)
Definition try_catch {W A} (only_l2a : bool) (m : M W A) (h : M W A) : M W A :=
  fun s =>
    match m s with
    | (Raise (L2A_Exception _), s') => h s'
    | (Raise (foreign_exception what), s') =>
        if only_l2a then (Raise (foreign_exception what), s') else h s'
    | r => r
    end.

(** Reading the object. *)
Definition this {W} : M W Global := fun s => (Ret (glob s), s).

(** Changing the object. *)
Definition modify {W} (f : Global -> Global) : M W unit :=
  fun s => (Ret tt, mkState (f (glob s)) (world s) (log s)).

Definition record {W} (ev : event) : M W unit :=
  fun s => (Ret tt, mkState (glob s) (world s) (log s ++ [ev])).

(** A call into a collaborator: the world moves on and the call is logged
    with its answer. *)
Definition call {W R} (op : W -> R * W) (ev : R -> event) : M W R :=
  fun s =>
    let '(r, w) := op (world s) in
    (Ret r, mkState (glob s) w (log s ++ [ev r])).

Definition call_ {W} (op : W -> W) (ev : event) : M W unit :=
  call (fun w => (tt, op w)) (fun _ => ev).

(** Modelled from the spec: the macro [l2a_error] (l2a_error.h), which fails
    fatally by throwing the project's exception. *)
Definition l2a_error {W A} (what : string) : M W A := raise (L2A_Exception what).

(** Modelled from the spec: the macro [l2a_check_ai_error] (l2a_error.h);
    any error code of the host other than success is fatal. *)
Definition l2a_check_ai_error {W} (err : AIErr) : M W unit :=
  match err with
  | kNoErr => pure tt
  | _ => l2a_error "Error in Illustrator function call"
  end.

Section Methods.
Context {W : Type} `{!Host W}.

(** *** The collaborators, as calls *)

Definition L2A_CheckGithubVersion : M W unit :=
  call_ host_CheckGithubVersion EvCheckGithubVersion.

Definition GetApplicationDataDirectory : M W FilePath :=
  call host_GetApplicationDataDirectory EvGetApplicationDataDirectory.

Definition CreateDirectoryL2A (p : FilePath) : M W unit :=
  call_ (host_CreateDirectoryL2A p) (EvCreateDirectoryL2A p).

Definition IsFile (p : FilePath) : M W bool :=
  call (host_IsFile p) (EvIsFile p).

Definition IsDirectory (p : FilePath) : M W bool :=
  call (host_IsDirectory p) (EvIsDirectory p).

Definition ReadFileUTF8 (p : FilePath) : M W string :=
  call (host_ReadFileUTF8 p) (EvReadFileUTF8 p).

Definition WriteFileUTF8 (p : FilePath) (text : string) (overwrite : bool) : M W unit :=
  call_ (host_WriteFileUTF8 p text overwrite) (EvWriteFileUTF8 p text overwrite).

Definition RemoveFile (p : FilePath) : M W unit :=
  call_ (host_RemoveFile p) (EvRemoveFile p).

Definition ClearTemporaryDirectory : M W unit :=
  call_ host_ClearTemporaryDirectory EvClearTemporaryDirectory.

Definition GetGhostScriptCommand : M W string :=
  call host_GetGhostScriptCommand EvGetGhostScriptCommand.

(** The result's field [output_], or the exception thrown. *)
Definition ExecuteCommandLine (cmd : string) (capture : bool) : M W string :=
  r <- call (host_ExecuteCommandLine cmd capture) (EvExecuteCommandLine cmd capture) ;;
  match r with
  | inl e => raise e
  | inr output_ => pure output_
  end.

Definition WarningAlert (msg : string) : M W unit :=
  call_ (host_WarningAlert msg) (EvWarningAlert msg).

Definition OKCancelAlert (msg : string) (dflt : bool) : M W bool :=
  call (host_OKCancelAlert msg dflt) (EvOKCancelAlert msg dflt).

Definition GetFileDialog (title : string) (filters : AIFileDialogFilters)
    (p : FilePath) : M W (AIErr * FilePath) :=
  call (host_GetFileDialog title filters p) (EvGetFileDialog title filters p).

Definition GetDirectoryDialog (title : string) (p : FilePath) : M W (AIErr * FilePath) :=
  call (host_GetDirectoryDialog title p) (EvGetDirectoryDialog title p).

(** The constructor [ParameterList(xml_string)]. *)
Definition ParameterList_ctor (xml_string : string) : M W ParameterList.t :=
  match ParameterList_of_xml xml_string with
  | Some pl => pure pl
  | None => l2a_error "The xml string could not be parsed"
  end.

(** [gs_command_ = v] and [latex_bin_path_ = v] *)
Definition assign_gs_command_ (v : string) : M W unit :=
  modify (set_gs_command_ v);; record (EvAssign_gs_command_ v).

Definition assign_latex_bin_path_ (v : FilePath) : M W unit :=
  modify (set_latex_bin_path_ v);; record (EvAssign_latex_bin_path_ v).

(** [SetFromParameterList] called as a method of the object. *)
Definition call_SetFromParameterList (parameter_list : ParameterList.t) : M W bool :=
  fun s =>
    let '(set_all, g) := SetFromParameterList StringToInteger parameter_list (glob s) in
    (Ret set_all, mkState g (world s) (log s)).

(** *** The validation predicates *)

(** [Global::CheckGhostscriptCommand] *)
Definition CheckGhostscriptCommand (gs_command : string) : M W bool :=
  let full_gs_command := dquote +:+ gs_command +:+ dquote +:+ " -v" in
  try_catch false
    (output_ <- ExecuteCommandLine full_gs_command true ;;
     if found output_ " Ghostscript " then pure true else pure false)
    (pure false).

(** The command [Global::CheckLatexCommand] decides to run for a path, given
    whether the path is a directory; [None] when it gives up at once. *)
Definition command_latex (is_directory : bool) (path_latex : FilePath) : option string :=
  if is_directory then
    let exe_path :=
      AddComponent (if WIN_ENV then "pdflatex.exe" else "pdflatex") path_latex in
    Some (dquote +:+ GetFullPath exe_path +:+ dquote)
  else if IsEmpty path_latex then Some "pdflatex"
  else None.

(** [Global::CheckLatexCommand] *)
Definition CheckLatexCommand (path_latex : FilePath) : M W bool :=
  is_directory <- IsDirectory path_latex ;;
  match command_latex is_directory path_latex with
  | None => pure false
  | Some command_latex =>
      let command_latex := command_latex +:+ " -version" in
      try_catch false
        (output_ <- ExecuteCommandLine command_latex true ;;
         if found output_ "pdfTeX" then pure true else pure false)
        (pure false)
  end.

(** *** The repair-setters *)

Definition gs_form_string : string :=
  "The path to the ghostscript executable (gswin32c.exe, gswin64c.exe) seems to be wrong. Please select the correct path, otherwise LaTeX2AI can not be used!".

Definition gs_dialog_filters : AIFileDialogFilters :=
  [ ("Executable (*.exe)", "*.exe") ].

Definition latex_form_string : string :=
  "The path to the folder with the LaTeX executables (pdflatex.exe, ...) seems to be wrong. Please select the correct path, otherwise LaTeX2AI can not be used!".

Definition dialog_message : string := "Select *.exe for the forms Application".

(** The [while] loop of [Global::SetGhostscriptCommand], with the two local
    variables it updates.  Each evaluation of the loop condition takes one
    unit of [fuel].  [None]: the function has returned [false] from inside
    the loop; [Some c]: the loop was left with [gs_command = c]. *)
Fixpoint SetGhostscriptCommand_while (fuel : nat) (gs_command : string)
    (gs_path : FilePath) : M W (option string) :=
  match fuel with
  | O => out_of_fuel
  | S fuel =>
      valid <- CheckGhostscriptCommand gs_command ;;
      if valid then pure (Some gs_command)
      else
        form_result <- OKCancelAlert gs_form_string true ;;
        if negb form_result then pure None
        else
          picked <- GetFileDialog dialog_message gs_dialog_filters gs_path ;;
          let '(err, gs_path) := picked in
          if decide (err = kCanceledErr) then pure None
          else
            l2a_check_ai_error err;;
            let gs_command := GetFullPath gs_path in
            SetGhostscriptCommand_while fuel gs_command gs_path
  end.

(** [Global::SetGhostscriptCommand] *)
Definition SetGhostscriptCommand (fuel : nat) (gs_command : string) : M W bool :=
  let gs_path := mkFilePath gs_command in
  r <- SetGhostscriptCommand_while fuel gs_command gs_path ;;
  match r with
  | None => pure false
  | Some gs_command => assign_gs_command_ gs_command;; pure true
  end.

(** The [while] loop of [Global::SetLatexCommand]. *)
Fixpoint SetLatexCommand_while (fuel : nat) (path : FilePath)
    : M W (option FilePath) :=
  match fuel with
  | O => out_of_fuel
  | S fuel =>
      valid <- CheckLatexCommand path ;;
      if valid then pure (Some path)
      else
        form_result <- OKCancelAlert latex_form_string true ;;
        if negb form_result then pure None
        else
          let message := dialog_message in
          picked <- GetDirectoryDialog message path ;;
          let '(err, path) := picked in
          if decide (err = kCanceledErr) then pure None
          else
            l2a_check_ai_error err;;
            SetLatexCommand_while fuel path
  end.

(** [Global::SetLatexCommand] *)
Definition SetLatexCommand (fuel : nat) (latex_path : FilePath) : M W bool :=
  let path := if WIN_ENV then latex_path else mkFilePath "/Library/TeX/texbin" in
  r <- SetLatexCommand_while fuel path ;;
  match r with
  | None => pure false
  | Some path => assign_latex_bin_path_ path;; pure true
  end.

(** *** Construction and destruction *)

Definition warning_not_all_loaded : string :=
  "Not all Plug-In settings of LaTeX2AI could be loaded. This can happen if a new version is used. Please check if all options are set to your preferences.".

(** The constructor up to and including "Set the default parameters". *)
Definition Global_set_defaults : M W unit :=
  modify (set_is_testing_ false);;
  L2A_CheckGithubVersion;;
  let default_parameter_list := GetDefaultParameterList IntegerToString ∅ in
  call_SetFromParameterList default_parameter_list;;
  pure tt.

(** The two paths below the application data directory. *)
Definition Global_set_paths : M W unit :=
  application_data_directory <- GetApplicationDataDirectory ;;
  CreateDirectoryL2A application_data_directory;;
  modify (set_application_data_path_
            (AddComponent "LaTeX2AI_application_data.xml" application_data_directory));;
  modify (set_l2a_item_last_input_
            (AddComponent "LaTeX2AI_last_input.xml" application_data_directory)).

(** "Load the parameter list stored in the application data directory":
    the [if (IsFile ...)] statement. *)
Definition Global_load_settings : M W unit :=
  g <- this ;;
  is_file <- IsFile (application_data_path_ g) ;;
  if is_file then
    xml_string <- ReadFileUTF8 (application_data_path_ g) ;;
    try_catch true
      (data_list <- ParameterList_ctor xml_string ;;
       set_all <- call_SetFromParameterList data_list ;;
       if negb set_all then WarningAlert warning_not_all_loaded else pure tt)
      (g <- this ;;
       RemoveFile (application_data_path_ g))
  else pure tt.

(** "Make sure the ghostscript command is valid".  The result is [false]
    when the constructor returns from inside this statement. *)
Definition Global_check_gs (fuel : nat) : M W bool :=
  g <- this ;;
  valid <- CheckGhostscriptCommand (gs_command_ g) ;;
  if negb valid then
    gs_command <- GetGhostScriptCommand ;;
    SetGhostscriptCommand fuel gs_command
  else pure true.

(** "Make sure the latex path is valid". *)
Definition Global_check_latex (fuel : nat) : M W unit :=
  g <- this ;;
  valid <- CheckLatexCommand (latex_bin_path_ g) ;;
  if negb valid then
    assign_latex_bin_path_ (mkFilePath EmptyString);;
    g <- this ;;
    SetLatexCommand fuel (latex_bin_path_ g);;
    pure tt
  else pure tt.

(** The constructor from "Clean the temporary directory" to its end. *)
Definition Global_validate (fuel : nat) : M W unit :=
  ClearTemporaryDirectory;;
  go_on <- Global_check_gs fuel ;;
  if go_on then Global_check_latex fuel else pure tt.

(** [Global::Global] *)
Definition Global_ctor (fuel : nat) : M W unit :=
  Global_set_defaults;;
  Global_set_paths;;
  Global_load_settings;;
  Global_validate fuel.

(** [Global::ToString] *)
Definition ToString (g : Global) : string :=
  ToXMLString "LaTeX2AI_options" (ToParameterList IntegerToString g ∅).

(** [Global::~Global] *)
Definition Global_dtor : M W unit :=
  g <- this ;;
  WriteFileUTF8 (application_data_path_ g) (ToString g) true.

End Methods.

(** ** The process-wide pointers and their accessors *)

Section Accessors.
(** The class of the plug-in object, which is declared elsewhere. *)
Variable L2APlugin : Type.

(** [_l2a_global] and [_l2a_plugin]; [None] is [nullptr]. *)
Record pointers : Type := mkPointers {
  _l2a_global : option Global;
  _l2a_plugin : option L2APlugin
}.

(** How an accessor ends: with a reference, with an exception, or with the
    undefined behaviour of dereferencing a null pointer. *)
Inductive access (A : Type) : Type :=
| Reference (a : A)
| Thrown (e : exn)
| Undefined.
Arguments Reference {A} _.
Arguments Thrown {A} _.
Arguments Undefined {A}.

(** [*p] *)
Definition deref {A} (p : option A) : access A :=
  match p with Some a => Reference a | None => Undefined end.

(** [L2A::GLOBAL::CheckGlobal]: [Some e] when it throws [e].
    Modelled from the spec: the macro [l2a_error] (l2a_error.h) fails
    fatally by throwing the project's exception with the given message. *)
Definition CheckGlobal (ps : pointers) : option exn :=
  match _l2a_global ps with
  | None => Some (L2A_Exception "The global object is not defined!")
  | Some _ => None
  end.

(** [L2A::GlobalMutable] *)
Definition GlobalMutable (ps : pointers) : access Global :=
  match CheckGlobal ps with
  | Some e => Thrown e
  | None => deref (_l2a_global ps)
  end.

(** [L2A::Global] *)
Definition Global_accessor (ps : pointers) : access Global := GlobalMutable ps.

(** [L2A::GlobalPluginMutable] *)
Definition GlobalPluginMutable (ps : pointers) : access L2APlugin :=
  match CheckGlobal ps with
  | Some e => Thrown e
  | None => deref (_l2a_plugin ps)
  end.

End Accessors.
Arguments Reference {A} _.
Arguments Thrown {A} _.
Arguments Undefined {A}.
Arguments mkPointers {L2APlugin} _ _.
Arguments _l2a_global {L2APlugin} _.
Arguments _l2a_plugin {L2APlugin} _.
Arguments CheckGlobal {L2APlugin} _.
Arguments GlobalMutable {L2APlugin} _.
Arguments Global_accessor {L2APlugin} _.
Arguments GlobalPluginMutable {L2APlugin} _.

(** ** A scripted environment

    A stand-in for the collaborators, used to run the methods on concrete
    inputs: a table of files, a list of directories, a table of the command
    lines that can be run with the output they print, and the answers the
    user is going to give, in order. *)

Module TestHost.

Record TestWorld : Type := mkTestWorld {
  tw_files : gmap string string;
  tw_dirs : list string;
  tw_commands : gmap string string;
  tw_answers : list bool;
  tw_picks : list (AIErr * string);
  tw_discovery : string
}.

Definition with_files (f : gmap string string) (w : TestWorld) : TestWorld :=
  mkTestWorld f (tw_dirs w) (tw_commands w) (tw_answers w) (tw_picks w) (tw_discovery w).

Definition with_dirs (d : list string) (w : TestWorld) : TestWorld :=
  mkTestWorld (tw_files w) d (tw_commands w) (tw_answers w) (tw_picks w) (tw_discovery w).

Definition with_answers (a : list bool) (w : TestWorld) : TestWorld :=
  mkTestWorld (tw_files w) (tw_dirs w) (tw_commands w) a (tw_picks w) (tw_discovery w).

Definition with_picks (p : list (AIErr * string)) (w : TestWorld) : TestWorld :=
  mkTestWorld (tw_files w) (tw_dirs w) (tw_commands w) (tw_answers w) p (tw_discovery w).

(** The next answer to an OK/Cancel alert; Cancel once the script is over. *)
Definition answer (w : TestWorld) : bool * TestWorld :=
  match tw_answers w with
  | [] => (false, w)
  | a :: rest => (a, with_answers rest w)
  end.

(** The next answer to a file or directory dialog; cancelled once the script
    is over.  The path is replaced only when the dialog succeeds. *)
Definition pick (p : FilePath) (w : TestWorld) : (AIErr * FilePath) * TestWorld :=
  match tw_picks w with
  | [] => ((kCanceledErr, p), w)
  | (kNoErr, chosen) :: rest => ((kNoErr, mkFilePath chosen), with_picks rest w)
  | (err, _) :: rest => ((err, p), with_picks rest w)
  end.

Definition run_command (cmd : string) (w : TestWorld) : (exn + string) * TestWorld :=
  match tw_commands w !! cmd with
  | Some output_ => (inr output_, w)
  | None => (inl (L2A_Exception "Error in ExecuteCommandLine"), w)
  end.

Definition decimal (z : Z) : string := NilZero.string_of_int (Z.to_int z).

Definition of_decimal (s : string) : Z :=
  match NilZero.int_of_string s with
  | Some i => Z.of_int i
  | None => 0%Z
  end.

(** A document is accepted when it opens with a tag; its options are not
    looked at. *)
Definition parse_document (s : string) : option ParameterList.t :=
  if String.prefix "<" s then Some ∅ else None.

Definition print_document (root : string) (pl : ParameterList.t) : string :=
  "<" +:+ root +:+ "/>".

(** The scripted environment, for a Windows build ([win = true]) or not. *)
Definition host (win : bool) : Host TestWorld := {|
  WIN_ENV := win;
  AddComponent := fun c p => mkFilePath (GetFullPath p +:+ "/" +:+ c);
  IntegerToString := decimal;
  StringToInteger := of_decimal;
  ParameterList_of_xml := parse_document;
  ToXMLString := print_document;
  host_CheckGithubVersion := fun w => w;
  host_GetApplicationDataDirectory := fun w => (mkFilePath "appdata", w);
  host_CreateDirectoryL2A := fun p w =>
    if bool_decide (GetFullPath p ∈ tw_dirs w) then w
    else with_dirs (GetFullPath p :: tw_dirs w) w;
  host_IsFile := fun p w => (bool_decide (is_Some (tw_files w !! GetFullPath p)), w);
  host_IsDirectory := fun p w => (bool_decide (GetFullPath p ∈ tw_dirs w), w);
  host_ReadFileUTF8 := fun p w => (default EmptyString (tw_files w !! GetFullPath p), w);
  host_WriteFileUTF8 := fun p text _ w => with_files (<[GetFullPath p := text]> (tw_files w)) w;
  host_RemoveFile := fun p w => with_files (delete (GetFullPath p) (tw_files w)) w;
  host_ClearTemporaryDirectory := fun w => w;
  host_GetGhostScriptCommand := fun w => (tw_discovery w, w);
  host_ExecuteCommandLine := fun cmd _ w => run_command cmd w;
  host_WarningAlert := fun _ w => w;
  host_OKCancelAlert := fun _ _ w => answer w;
  host_GetFileDialog := fun _ _ p w => pick p w;
  host_GetDirectoryDialog := fun _ p w => pick p w
|}.

(** An object before construction: nothing in it is meaningful yet. *)
Definition raw : Global :=
  mkGlobal true (mkFilePath "?") (mkFilePath "?") (mkFilePath "?") "?" "?" "?" false false.

Definition start (g : Global) (w : TestWorld) : state TestWorld := mkState g w [].

End TestHost.

(** ** Scenarios

    Objects and machines for the runs in the scripted environment. *)

Module Scenario.
Import TestHost.

(** The runs are on a Windows build. *)
#[export] Instance windows : Host TestWorld := host true.

(** An object with settings of its own. *)
Definition sample : Global :=
  mkGlobal false (mkFilePath "appdata/LaTeX2AI_application_data.xml")
    (mkFilePath "appdata/LaTeX2AI_last_input.xml")
    (mkFilePath "C:/texlive/bin") "lualatex" "-shell-escape" "C:/gs/bin/gswin64c.exe"
    false true.

(** The object with the six defaults. *)
Definition fresh : Global :=
  mkGlobal false (mkFilePath "appdata/LaTeX2AI_application_data.xml")
    (mkFilePath "appdata/LaTeX2AI_last_input.xml")
    (mkFilePath EmptyString) "pdflatex" default_latex_command_options EmptyString
    true true.

(** A settings document without the key [gs_command]. *)
Definition five_keys : ParameterList.t :=
  <["latex_bin_path" := "C:/miktex"]>
    (<["latex_engine" := "xelatex"]>
       (<["latex_command_options" := "-quiet"]>
          (<["warning_boundary_boxes" := "0"]>
             (<["warning_ai_not_saved" := "1"]> ∅)))).

(** The command lines that work on the scripted machine, and what they
    print. *)
Definition gs_exe : string := "C:/gs/bin/gswin64c.exe".
Definition gs_probe (c : string) : string := dquote +:+ c +:+ dquote +:+ " -v".
Definition gs_banner : string := "GPL Ghostscript 9.53.3 (2020-10-01)".
Definition tex_banner : string := "pdfTeX 3.14159265-2.6-1.40.21 (TeX Live 2020)".

Definition commands : gmap string string :=
  <[gs_probe gs_exe := gs_banner]>
    (<["pdflatex -version" := tex_banner]>
       (<[(dquote +:+ "C:/texlive/bin/pdflatex.exe" +:+ dquote) +:+ " -version"
          := tex_banner]> ∅)).

(** A machine whose settings file is not a settings document. *)
Definition corrupt_world : TestWorld :=
  mkTestWorld {["appdata/LaTeX2AI_application_data.xml" := "not a settings document"]}
    ["appdata"; "C:/texlive/bin"] commands [] [] gs_exe.

(** A machine without a renderer, and a user who cancels the first alert. *)
Definition no_renderer : TestWorld :=
  mkTestWorld ∅ ["appdata"] ∅ [] [] "gs".

(** A machine on which the user confirms three times and picks two files
    that are not the renderer before picking the renderer. *)
Definition third_time_lucky : TestWorld :=
  mkTestWorld ∅ ["appdata"] commands [true; true; true]
    [(kNoErr, "C:/notepad.exe"); (kNoErr, "C:/calc.exe"); (kNoErr, gs_exe)] "gs".

(** An object whose renderer is right and whose typesetting path is not. *)
Definition wrong_tex_path : Global :=
  mkGlobal false (mkFilePath "appdata/LaTeX2AI_application_data.xml")
    (mkFilePath "appdata/LaTeX2AI_last_input.xml")
    (mkFilePath "C:/nowhere") "pdflatex" default_latex_command_options gs_exe
    true true.

(** A machine with a renderer and no typesetting system, and a user who
    cancels the first alert. *)
Definition no_typesetter : TestWorld :=
  mkTestWorld ∅ ["appdata"] {[gs_probe gs_exe := gs_banner]} [] [] gs_exe.

End Scenario.

(** ** Vocabulary of the statements *)

(** The six persisted fields of an object. *)
Definition config (g : Global) : FilePath * string * string * string * bool * bool :=
  (latex_bin_path_ g, latex_engine_ g, latex_command_options_ g, gs_command_ g,
   warning_boundary_boxes_ g, warning_ai_not_saved_ g).

(** The values [GetDefaultParameterList] carries. *)
Definition default_config : FilePath * string * string * string * bool * bool :=
  (mkFilePath EmptyString, "pdflatex", default_latex_command_options, EmptyString,
   true, true).

(** The value of a field after a load: decoded from the list when the key is
    there, the old value otherwise. *)
Definition overlay_field {A} (pl : ParameterList.t) (key : string)
    (decode : string -> A) (old : A) : A :=
  match pl !! key with
  | Some v => decode v
  | None => old
  end.

(** The recognized keys a list does not have. *)
Definition missing_keys (pl : ParameterList.t) : list string :=
  List.filter (fun key => negb (OptionExists key pl)) recognized_keys.

(** The answer of a version probe: [b] says whether the captured output
    contains the marker, and a command that could not be run counts as
    a negative answer. *)
Definition probe_result (marker : string) (r : exn + string) (b : bool) : Prop :=
  match r with
  | inr output_ => b = true <-> substring_of marker output_
  | inl _ => b = false
  end.

(** The same answer, as the methods compute it. *)
Definition probe (marker : string) (r : exn + string) : bool :=
  match r with
  | inr output_ => found output_ marker
  | inl _ => false
  end.

(** Kinds of log entries. *)
Definition is_assignment (ev : event) : bool :=
  match ev with
  | EvAssign_gs_command_ _ | EvAssign_latex_bin_path_ _ => true
  | _ => false
  end.

Definition is_cancel (ev : event) : bool :=
  match ev with
  | EvOKCancelAlert _ _ false => true
  | EvGetFileDialog _ _ _ (kCanceledErr, _) => true
  | EvGetDirectoryDialog _ _ (kCanceledErr, _) => true
  | _ => false
  end.

Definition is_confirmation (ev : event) : bool :=
  match ev with
  | EvOKCancelAlert _ _ true => true
  | _ => false
  end.

(** Entries that only the typesetting check and its repair produce. *)
Definition is_latex_step (ev : event) : bool :=
  match ev with
  | EvIsDirectory _ _ | EvGetDirectoryDialog _ _ _ | EvAssign_latex_bin_path_ _ => true
  | _ => false
  end.

Definition assignments (evs : list event) : list event := List.filter is_assignment evs.
Definition cancels (evs : list event) : list event := List.filter is_cancel evs.
Definition confirmations (evs : list event) : list event := List.filter is_confirmation evs.
Definition latex_steps (evs : list event) : list event := List.filter is_latex_step evs.

(** An outcome with its value forgotten. *)
Definition void {A} (o : outcome A) : outcome unit :=
  match o with
  | Ret _ => Ret tt
  | Raise e => Raise e
  | OutOfFuel => OutOfFuel
  end.

(** All fields but [gs_command_] agree. *)
Definition same_except_gs_command_ (g g' : Global) : Prop :=
  is_testing_ g' = is_testing_ g
  /\ application_data_path_ g' = application_data_path_ g
  /\ l2a_item_last_input_ g' = l2a_item_last_input_ g
  /\ latex_bin_path_ g' = latex_bin_path_ g
  /\ latex_engine_ g' = latex_engine_ g
  /\ latex_command_options_ g' = latex_command_options_ g
  /\ warning_boundary_boxes_ g' = warning_boundary_boxes_ g
  /\ warning_ai_not_saved_ g' = warning_ai_not_saved_ g.

(** All fields but [latex_bin_path_] agree. *)
Definition same_except_latex_bin_path_ (g g' : Global) : Prop :=
  is_testing_ g' = is_testing_ g
  /\ application_data_path_ g' = application_data_path_ g
  /\ l2a_item_last_input_ g' = l2a_item_last_input_ g
  /\ latex_engine_ g' = latex_engine_ g
  /\ latex_command_options_ g' = latex_command_options_ g
  /\ gs_command_ g' = gs_command_ g
  /\ warning_boundary_boxes_ g' = warning_boundary_boxes_ g
  /\ warning_ai_not_saved_ g' = warning_ai_not_saved_ g.

Section Vocabulary.
Context {W : Type} `{!Host W}.

(** [evs] ends with a successful renderer probe of the candidate [c]. *)
Definition gs_validated (c : string) (evs : list event) : Prop :=
  exists pre output_,
    evs = pre ++ [EvExecuteCommandLine (dquote +:+ c +:+ dquote +:+ " -v") true (inr output_)]
    /\ found output_ " Ghostscript " = true.

(** [evs] ends with a successful typesetting probe of the candidate [p]. *)
Definition latex_validated (p : FilePath) (evs : list event) : Prop :=
  exists pre d cmd output_,
    evs = pre ++ [EvIsDirectory p d;
                  EvExecuteCommandLine (cmd +:+ " -version") true (inr output_)]
    /\ command_latex d p = Some cmd
    /\ found output_ "pdfTeX" = true.

(** What a prompt loop may do between the state [s] it starts in and its
    result [res]: the object is as before, nothing was assigned, and
    - when the loop is left with a candidate, nobody cancelled and the last
      thing that happened is the successful validation of that candidate;
    - when the function returns from inside the loop, the last thing that
      happened is the first cancellation;
    - when the fuel is used up, the user has confirmed [rounds] times. *)
Definition loop_spec {A} (validated : A -> list event -> Prop) (rounds : nat)
    (s : state W) (res : outcome (option A) * state W) : Prop :=
  glob res.2 = glob s /\
  exists evs, log res.2 = log s ++ evs /\ assignments evs = [] /\
    match res.1 with
    | Ret (Some c) => cancels evs = [] /\ validated c evs
    | Ret None =>
        exists pre ev, evs = pre ++ [ev] /\ is_cancel ev = true /\ cancels pre = []
    | Raise _ => cancels evs = []
    | OutOfFuel => cancels evs = [] /\ length (confirmations evs) = rounds
    end.

(** What a repair-setter may do between the state [s] it is called in and
    its result [res], where [evs] is what it adds to the log:
    - on success the only assignment is the last entry, it stores the
      candidate whose validation has just succeeded, and nobody cancelled;
    - on failure nothing was assigned, the object is as before, and the
      last entry is the first cancellation;
    - when a dialog error is thrown or the fuel is used up, nothing was
      assigned and the object is as before; the fuel is used up only after
      [fuel] confirmations. *)
Definition repair_spec {A} (assign : A -> event) (store : A -> Global -> Global)
    (validated : A -> list event -> Prop) (fuel : nat)
    (s : state W) (res : outcome bool * state W) : Prop :=
  exists evs, log res.2 = log s ++ evs /\
    (cancels evs <> [] -> res.1 = Ret false) /\
    match res.1 with
    | Ret true =>
        exists c pre, evs = pre ++ [assign c] /\ validated c pre
          /\ assignments pre = [] /\ glob res.2 = store c (glob s)
    | Ret false =>
        assignments evs = [] /\ glob res.2 = glob s
        /\ exists pre ev, evs = pre ++ [ev] /\ is_cancel ev = true /\ cancels pre = []
    | Raise _ => assignments evs = [] /\ glob res.2 = glob s
    | OutOfFuel =>
        assignments evs = [] /\ glob res.2 = glob s
        /\ length (confirmations evs) = fuel
    end.

End Vocabulary.

(** ** Vocabulary of the further statements *)

(** The object with its six persisted fields replaced by the defaults. *)
Definition with_defaults (g : Global) : Global :=
  mkGlobal (is_testing_ g) (application_data_path_ g) (l2a_item_last_input_ g)
    (mkFilePath EmptyString) "pdflatex" default_latex_command_options EmptyString
    true true.

(** The three fields that are not persisted. *)
Definition session (g : Global) : bool * FilePath * FilePath :=
  (is_testing_ g, application_data_path_ g, l2a_item_last_input_ g).

(** Two lists that agree on the six recognized keys. *)
Definition agree_on_recognized_keys (pl1 pl2 : ParameterList.t) : Prop :=
  forall key, key ∈ recognized_keys -> pl1 !! key = pl2 !! key.

(** All fields but the two toolchain fields agree. *)
Definition same_except_tools (g g' : Global) : Prop :=
  is_testing_ g' = is_testing_ g
  /\ application_data_path_ g' = application_data_path_ g
  /\ l2a_item_last_input_ g' = l2a_item_last_input_ g
  /\ latex_engine_ g' = latex_engine_ g
  /\ latex_command_options_ g' = latex_command_options_ g
  /\ warning_boundary_boxes_ g' = warning_boundary_boxes_ g
  /\ warning_ai_not_saved_ g' = warning_ai_not_saved_ g.


Definition is_removal (ev : event) : bool :=
  match ev with
  | EvRemoveFile _ => true
  | _ => false
  end.

(** Entries that put something in front of the user. *)
Definition is_prompt (ev : event) : bool :=
  match ev with
  | EvWarningAlert _ | EvOKCancelAlert _ _ _
  | EvGetFileDialog _ _ _ _ | EvGetDirectoryDialog _ _ _ => true
  | _ => false
  end.

(** A dialog that ended with an error other than a cancellation. *)
Definition is_dialog_error (ev : event) : bool :=
  match ev with
  | EvGetFileDialog _ _ _ (kOtherErr _, _) => true
  | EvGetDirectoryDialog _ _ (kOtherErr _, _) => true
  | _ => false
  end.

(** Entries of the part of the constructor that validates the two tools:
    probes, questions to the file system about a directory, alerts with
    two buttons, pickers, the discovery of the renderer, the cleaning of
    the temporary directory and assignments to the two fields. *)
Definition is_validation_entry (ev : event) : bool :=
  match ev with
  | EvClearTemporaryDirectory | EvGetGhostScriptCommand _
  | EvExecuteCommandLine _ _ _ | EvIsDirectory _ _
  | EvOKCancelAlert _ _ _ | EvGetFileDialog _ _ _ _ | EvGetDirectoryDialog _ _ _
  | EvAssign_gs_command_ _ | EvAssign_latex_bin_path_ _ => true
  | _ => false
  end.

Definition removals (evs : list event) : list event := List.filter is_removal evs.
Definition prompts (evs : list event) : list event := List.filter is_prompt evs.

(** The path a dialog has handed back with success. *)
Definition picked (ev : event) : option FilePath :=
  match ev with
  | EvGetFileDialog _ _ _ (kNoErr, p) => Some p
  | EvGetDirectoryDialog _ _ (kNoErr, p) => Some p
  | _ => None
  end.

(** The paths picked in the course of a log, in order. *)
Definition picks (evs : list event) : list FilePath := omap picked evs.

(** The exception [l2a_check_ai_error] throws. *)
Definition dialog_exception : exn := L2A_Exception "Error in Illustrator function call".

Section Traces.
Context {A : Type}.
(** The entries one validation of a candidate adds, with its answer. *)
Variable check_events : A -> bool -> list event -> Prop.
(** The text of the alert, the entry of the picker (given the path it is
    opened on and its answer) and the candidate made from a picked path. *)
Variable alert : string.
Variable dialog : FilePath -> AIErr * FilePath -> event.
Variable candidate_of : FilePath -> A.

(** The shape of what a prompt loop adds to the log, from the candidate and
    the path it starts with to the way it ends: rounds of a failed
    validation, a confirmation and a successful pick, closed by a
    successful validation, by a cancellation of the alert or of the picker,
    by an error of the picker, or by the end of the fuel. *)
Inductive repair_trace : A -> FilePath -> outcome (option A) -> list event -> Prop :=
| trace_valid (c : A) (p : FilePath) (evs : list event) :
    check_events c true evs ->
    repair_trace c p (Ret (Some c)) evs
| trace_cancel_alert (c : A) (p : FilePath) (evs : list event) :
    check_events c false evs ->
    repair_trace c p (Ret None) (evs ++ [EvOKCancelAlert alert true false])
| trace_cancel_dialog (c : A) (p p' : FilePath) (evs : list event) :
    check_events c false evs ->
    repair_trace c p (Ret None)
      (evs ++ [EvOKCancelAlert alert true true; dialog p (kCanceledErr, p')])
| trace_dialog_error (c : A) (p p' : FilePath) (code : Z) (evs : list event) :
    check_events c false evs ->
    repair_trace c p (Raise dialog_exception)
      (evs ++ [EvOKCancelAlert alert true true; dialog p (kOtherErr code, p')])
| trace_out_of_fuel (c : A) (p : FilePath) :
    repair_trace c p OutOfFuel []
| trace_round (c : A) (p p' : FilePath) (o : outcome (option A))
    (evs rest : list event) :
    check_events c false evs ->
    repair_trace (candidate_of p') p' o rest ->
    repair_trace c p o
      (evs ++ [EvOKCancelAlert alert true true; dialog p (kNoErr, p')] ++ rest).

End Traces.

Section CheckEvents.
Context {W : Type} `{!Host W}.

(** What one renderer check adds to the log. *)
Definition gs_check_events (c : string) (b : bool) (evs : list event) : Prop :=
  exists r : exn + string,
    evs = [EvExecuteCommandLine (dquote +:+ c +:+ dquote +:+ " -v") true r]
    /\ b = probe " Ghostscript " r.

(** What one typesetting check adds to the log. *)
Definition latex_check_events (p : FilePath) (b : bool) (evs : list event) : Prop :=
  exists d : bool,
    match command_latex d p with
    | None => b = false /\ evs = [EvIsDirectory p d]
    | Some cmd =>
        exists r : exn + string,
          b = probe "pdfTeX" r
          /\ evs = [EvIsDirectory p d;
                    EvExecuteCommandLine (cmd +:+ " -version") true r]
    end.

(** The shapes of the logs of the two prompt loops. *)
Definition gs_trace : string -> FilePath -> outcome (option string) -> list event -> Prop :=
  repair_trace gs_check_events gs_form_string
    (EvGetFileDialog dialog_message gs_dialog_filters) GetFullPath.

Definition latex_trace : FilePath -> outcome (option FilePath) -> list event -> Prop :=
  fun p => repair_trace latex_check_events latex_form_string
             (EvGetDirectoryDialog dialog_message) id p p.

(** The path [SetLatexCommand] starts with. *)
Definition initial_latex_path (latex_path : FilePath) : FilePath :=
  if WIN_ENV then latex_path else mkFilePath "/Library/TeX/texbin".

End CheckEvents.

(** A method all of whose log entries, whatever the state it starts in and
    however it ends, satisfy [P]. *)
Definition logs_only {W A} (P : event -> Prop) (m : M W A) : Prop :=
  forall s : state W, exists evs, log (m s).2 = log s ++ evs /\ Forall P evs.

(** A method that, whatever the state it starts in and however it ends,
    leaves the object related by [R] to the object it found. *)
Definition keeps {W A} (R : Global -> Global -> Prop) (m : M W A) : Prop :=
  forall s : state W, R (glob s) (glob (m s).2).

(** ** A scripted environment with a settings codec

    The scripted environment again, with a codec that writes the name of
    the root element on a first line and every option on a line of its own,
    as [key=value]. *)

Module TestCodec.
Import TestHost.

Definition newline : string := String (ascii_of_nat 10) EmptyString.

(** [s] cut at the first occurrence of the character [c]. *)
Fixpoint cut (c : ascii) (s : string) : option (string * string) :=
  match s with
  | EmptyString => None
  | String d s' =>
      if Ascii.eqb c d then Some (EmptyString, s')
      else match cut c s' with
           | Some (before, after) => Some (String d before, after)
           | None => None
           end
  end.

(** The lines of [s]; every line ends with a newline. *)
Fixpoint lines (fuel : nat) (s : string) : option (list string) :=
  match fuel with
  | O => None
  | S fuel =>
      match s with
      | EmptyString => Some []
      | _ =>
          match cut (ascii_of_nat 10) s with
          | Some (line, rest) =>
              match lines fuel rest with
              | Some ls => Some (line :: ls)
              | None => None
              end
          | None => None
          end
      end
  end.

Definition print_option (kv : string * string) : string :=
  kv.1 +:+ "=" +:+ kv.2 +:+ newline.

Definition print_lines (root : string) (pl : ParameterList.t) : string :=
  root +:+ newline +:+ String.concat EmptyString (print_option <$> map_to_list pl).

Definition parse_option (line : string) : option (string * string) := cut "=" line.

Definition parse_lines (s : string) : option ParameterList.t :=
  match lines (S (String.length s)) s with
  | Some (root :: options) =>
      match mapM parse_option options with
      | Some kvs => Some (list_to_map kvs)
      | None => None
      end
  | _ => None
  end.

(** The scripted environment of a Windows build with this codec. *)
Definition host_with_codec : Host TestWorld := {|
  WIN_ENV := true;
  AddComponent := AddComponent (Host := TestHost.host true);
  IntegerToString := decimal;
  StringToInteger := of_decimal;
  ParameterList_of_xml := parse_lines;
  ToXMLString := print_lines;
  host_CheckGithubVersion := host_CheckGithubVersion (Host := TestHost.host true);
  host_GetApplicationDataDirectory :=
    host_GetApplicationDataDirectory (Host := TestHost.host true);
  host_CreateDirectoryL2A := host_CreateDirectoryL2A (Host := TestHost.host true);
  host_IsFile := host_IsFile (Host := TestHost.host true);
  host_IsDirectory := host_IsDirectory (Host := TestHost.host true);
  host_ReadFileUTF8 := host_ReadFileUTF8 (Host := TestHost.host true);
  host_WriteFileUTF8 := host_WriteFileUTF8 (Host := TestHost.host true);
  host_RemoveFile := host_RemoveFile (Host := TestHost.host true);
  host_ClearTemporaryDirectory := host_ClearTemporaryDirectory (Host := TestHost.host true);
  host_GetGhostScriptCommand := host_GetGhostScriptCommand (Host := TestHost.host true);
  host_ExecuteCommandLine := host_ExecuteCommandLine (Host := TestHost.host true);
  host_WarningAlert := host_WarningAlert (Host := TestHost.host true);
  host_OKCancelAlert := host_OKCancelAlert (Host := TestHost.host true);
  host_GetFileDialog := host_GetFileDialog (Host := TestHost.host true);
  host_GetDirectoryDialog := host_GetDirectoryDialog (Host := TestHost.host true)
|}.

End TestCodec.

(** ** More scenarios *)

Module Scenario2.
Import TestHost Scenario.

(** A machine with both tools, nothing on disk and nobody at the keyboard. *)
Definition tools_installed : TestWorld :=
  mkTestWorld ∅ ["appdata"; "C:/texlive/bin"] commands [] [] gs_exe.


(** A machine on which the file dialog fails. *)
Definition broken_dialog : TestWorld :=
  mkTestWorld ∅ ["appdata"] commands [true] [(kOtherErr 7, "C:/x.exe")] "gs".

(** The document without [gs_command] again, with an option nobody reads. *)
Definition five_keys_and_more : ParameterList.t :=
  <["window_size" := "3"]> five_keys.

(** The settings of [sample] in an object of another session. *)
Definition sample_elsewhere : Global :=
  mkGlobal true (mkFilePath "elsewhere/LaTeX2AI_application_data.xml")
    (mkFilePath "elsewhere/LaTeX2AI_last_input.xml")
    (mkFilePath "C:/texlive/bin") "lualatex" "-shell-escape" "C:/gs/bin/gswin64c.exe"
    false true.

(** The scripted environment of a build that is not for Windows. *)
Definition elsewhere : Host TestWorld := host false.

End Scenario2.

(** * Properties *)

(** ** Searching a string *)

Lemma append_String (c : ascii) (p q : string) :
  String c p +:+ q = String c (p +:+ q).
Proof. reflexivity. Qed.

Lemma append_assoc (p q r : string) : (p +:+ q) +:+ r = p +:+ q +:+ r.
Proof.
  induction p as [|c p IH]; [reflexivity|].
  rewrite !append_String, IH. reflexivity.
Qed.

Lemma prefix_app (p s : string) :
  String.prefix p s = true <-> exists post, s = p +:+ post.
Proof.
  revert s; induction p as [|c p IH]; intros s; simpl.
  - destruct s; split; eauto.
  - destruct s as [|d s]; simpl.
    + split; [discriminate | intros [post Hp]; rewrite append_String in Hp; discriminate].
    + destruct (Ascii.ascii_dec c d) as [->|Hne].
      * rewrite IH. split; intros [post Hp]; exists post;
          rewrite append_String in *; congruence.
      * split; [discriminate | intros [post Hp]; rewrite append_String in Hp; congruence].
Qed.

Lemma find_from_unfold (pat s : string) (i : nat) :
  find_from pat s i =
  if String.prefix pat s then Some i
  else match s with
       | EmptyString => None
       | String _ s' => find_from pat s' (S i)
       end.
Proof. destruct s; reflexivity. Qed.

Lemma find_from_Some (pat s : string) (i : nat) :
  is_Some (find_from pat s i) <-> substring_of pat s.
Proof.
  revert i; induction s as [|c s IH]; intros i; rewrite find_from_unfold;
    destruct (String.prefix pat _) eqn:Hp.
  - split; [intros _ | intros _; by eexists].
    apply prefix_app in Hp as [post Hp]. exists EmptyString, post. exact Hp.
  - split; [intros [? ?]; discriminate |].
    intros (pre & post & Heq).
    destruct pre; [|rewrite append_String in Heq; discriminate].
    change (EmptyString = pat +:+ post) in Heq.
    assert (String.prefix pat EmptyString = true) by (apply prefix_app; eauto).
    congruence.
  - split; [intros _ | intros _; by eexists].
    apply prefix_app in Hp as [post Hp]. exists EmptyString, post. exact Hp.
  - rewrite IH. split.
    + intros (pre & post & ->). exists (String c pre), post. reflexivity.
    + intros (pre & post & Heq). destruct pre as [|d pre].
      * change (String c s = pat +:+ post) in Heq.
        assert (String.prefix pat (String c s) = true) by (apply prefix_app; eauto).
        congruence.
      * rewrite append_String in Heq. injection Heq as -> ->. by exists pre, post.
Qed.

(** [find] answers [npos] exactly when the pattern does not occur. *)
Lemma found_spec (s pat : string) : found s pat = true <-> substring_of pat s.
Proof.
  unfold found, find. rewrite <- (find_from_Some pat s 0).
  destruct (find_from pat s 0); split; try done.
Qed.

Lemma probe_probe_result (marker : string) (r : exn + string) :
  probe_result marker r (probe marker r).
Proof. destruct r as [e|out]; cbn; [reflexivity | apply found_spec]. Qed.

(** ** Encoding and decoding the six fields *)

Section SerializationFacts.
Variable IntegerToString : Z -> string.
Variable StringToInteger : string -> Z.

Local Abbreviation encode := (ToParameterList IntegerToString).
Local Abbreviation defaults := (GetDefaultParameterList IntegerToString).
Local Abbreviation decode := (SetFromParameterList StringToInteger).

(** [SetFromParameterList], field by field. *)
Lemma SetFromParameterList_spec (pl : ParameterList.t) (g : Global) :
  decode pl g =
  (forallb (fun k => OptionExists k pl) recognized_keys,
   mkGlobal (is_testing_ g) (application_data_path_ g) (l2a_item_last_input_ g)
     (overlay_field pl "latex_bin_path" mkFilePath (latex_bin_path_ g))
     (overlay_field pl "latex_engine" id (latex_engine_ g))
     (overlay_field pl "latex_command_options" id (latex_command_options_ g))
     (overlay_field pl "gs_command" id (gs_command_ g))
     (overlay_field pl "warning_boundary_boxes"
        (fun v => bool_of_int (StringToInteger v)) (warning_boundary_boxes_ g))
     (overlay_field pl "warning_ai_not_saved"
        (fun v => bool_of_int (StringToInteger v)) (warning_ai_not_saved_ g))).
Proof.
  unfold SetFromParameterList, OptionExists, GetIntOption, GetStringOption,
    overlay_field.
  cbn [forallb recognized_keys].
  destruct g as [t adp lin lbp le lco gs wbb wans]; cbn.
  destruct (pl !! "latex_bin_path"), (pl !! "latex_engine"),
    (pl !! "latex_command_options"), (pl !! "gs_command"),
    (pl !! "warning_boundary_boxes"), (pl !! "warning_ai_not_saved");
    reflexivity.
Qed.

(** The six lookups in an encoded object. *)
Lemma ToParameterList_lookup (this : Global) (pl0 : ParameterList.t) :
  let pl := encode this pl0 in
  pl !! "latex_bin_path" = Some (GetFullPath (latex_bin_path_ this))
  /\ pl !! "latex_engine" = Some (latex_engine_ this)
  /\ pl !! "latex_command_options" = Some (latex_command_options_ this)
  /\ pl !! "gs_command" = Some (gs_command_ this)
  /\ pl !! "warning_boundary_boxes"
     = Some (IntegerToString (Z.b2z (warning_boundary_boxes_ this)))
  /\ pl !! "warning_ai_not_saved"
     = Some (IntegerToString (Z.b2z (warning_ai_not_saved_ this))).
Proof.
  unfold ToParameterList, SetOption_bool, SetOption_int, SetOption_path, SetOption.
  unfold ParameterList.t in *. cbn zeta.
  repeat split; rewrite ?lookup_insert_ne by done; apply lookup_insert_eq.

Qed.

Lemma ToParameterList_dom (this : Global) :
  dom (encode this ∅) = list_to_set recognized_keys.
Proof.
  unfold ToParameterList, SetOption_bool, SetOption_int, SetOption_path, SetOption,
    ParameterList.t.
  cbn zeta. rewrite !dom_insert_L, dom_empty_L. cbn. set_solver.
Qed.

Lemma GetDefaultParameterList_dom :
  dom (defaults ∅) = list_to_set recognized_keys.
Proof.
  unfold GetDefaultParameterList, SetOption_bool, SetOption_int, SetOption,
    ParameterList.t.
  cbn zeta. rewrite !dom_insert_L, dom_empty_L. cbn. set_solver.
Qed.

Lemma decode_complete (pl : ParameterList.t) (g : Global) :
  (decode pl g).1 = true <-> forall key, key ∈ recognized_keys -> is_Some (pl !! key).
Proof.
  rewrite SetFromParameterList_spec. cbn [fst].
  rewrite forallb_forall. unfold OptionExists. split.
  - intros H key Hin. apply list_elem_of_In, H in Hin.
    by apply bool_decide_eq_true in Hin.
  - intros H key Hin. apply bool_decide_eq_true, H, list_elem_of_In, Hin.
Qed.

(** C1: encoding an object with [ToParameterList] and decoding the result
    with [SetFromParameterList] gives back the six persisted fields exactly
    and reports a complete load, whatever the list held before and whatever
    object is decoded into; the keys written are the six keys read.  The
    two integer conversions of the project are assumed to be inverse to
    each other on [0] and [1]. *)
Theorem encode_decode_roundtrip
    (Hzero : StringToInteger (IntegerToString 0) = 0%Z)
    (Hone : StringToInteger (IntegerToString 1) = 1%Z)
    (this other : Global) (pl0 : ParameterList.t) :
  decode (encode this pl0) other =
    (true,
     mkGlobal (is_testing_ other) (application_data_path_ other)
       (l2a_item_last_input_ other)
       (latex_bin_path_ this) (latex_engine_ this) (latex_command_options_ this)
       (gs_command_ this) (warning_boundary_boxes_ this) (warning_ai_not_saved_ this))
  /\ decode (encode this ∅) this = (true, this)
  /\ config (decode (encode this pl0) other).2 = config this
  /\ dom (encode this ∅) = list_to_set recognized_keys
  /\ (forall pl g, (decode pl g).1 = true <->
                   forall key, key ∈ recognized_keys -> is_Some (pl !! key)).
Proof.
  assert (Hbool : forall b : bool,
             bool_of_int (StringToInteger (IntegerToString (Z.b2z b))) = b).
  { intros [|]; cbn [Z.b2z]; [rewrite Hone | rewrite Hzero]; reflexivity. }
  assert (Hgen : forall (a b : Global) (pl : ParameterList.t),
             decode (encode a pl) b =
             (true,
              mkGlobal (is_testing_ b) (application_data_path_ b) (l2a_item_last_input_ b)
                (latex_bin_path_ a) (latex_engine_ a) (latex_command_options_ a)
                (gs_command_ a) (warning_boundary_boxes_ a) (warning_ai_not_saved_ a))).
  { intros a b pl. rewrite SetFromParameterList_spec.
    destruct (ToParameterList_lookup a pl) as (H1 & H2 & H3 & H4 & H5 & H6).
    unfold overlay_field, OptionExists. cbn [forallb recognized_keys].
    rewrite H1, H2, H3, H4, H5, H6, !Hbool.
    destruct a as [? ? ? [?] ? ? ? ? ?]. reflexivity. }
  split; [apply Hgen|].
  split; [rewrite Hgen; by destruct this|].
  split; [rewrite Hgen; reflexivity|].
  split; [apply ToParameterList_dom | apply decode_complete].
Qed.

(** C2: when exactly one of the six keys is missing from the list,
    [SetFromParameterList] returns [false], leaves the field of that key as
    it was (at its default, when the object holds the defaults), overwrites
    the five other fields with what the list says, and touches nothing
    else.  The function has no way to end other than returning. *)
Theorem decode_one_key_missing (pl : ParameterList.t) (key : string) (g : Global)
    (Hmissing : missing_keys pl = [key]) :
  exists g', decode pl g = (false, g')
  /\ latex_bin_path_ g' =
       (if decide (key = "latex_bin_path") then latex_bin_path_ g
        else mkFilePath (GetStringOption "latex_bin_path" pl))
  /\ latex_engine_ g' =
       (if decide (key = "latex_engine") then latex_engine_ g
        else GetStringOption "latex_engine" pl)
  /\ latex_command_options_ g' =
       (if decide (key = "latex_command_options") then latex_command_options_ g
        else GetStringOption "latex_command_options" pl)
  /\ gs_command_ g' =
       (if decide (key = "gs_command") then gs_command_ g
        else GetStringOption "gs_command" pl)
  /\ warning_boundary_boxes_ g' =
       (if decide (key = "warning_boundary_boxes") then warning_boundary_boxes_ g
        else bool_of_int (GetIntOption StringToInteger "warning_boundary_boxes" pl))
  /\ warning_ai_not_saved_ g' =
       (if decide (key = "warning_ai_not_saved") then warning_ai_not_saved_ g
        else bool_of_int (GetIntOption StringToInteger "warning_ai_not_saved" pl))
  /\ is_testing_ g' = is_testing_ g
  /\ application_data_path_ g' = application_data_path_ g
  /\ l2a_item_last_input_ g' = l2a_item_last_input_ g.
Proof.
  rewrite SetFromParameterList_spec. eexists. split.
  - f_equal. revert Hmissing. unfold missing_keys.
    cbn [List.filter forallb recognized_keys].
    destruct (OptionExists "latex_bin_path" pl), (OptionExists "latex_engine" pl),
      (OptionExists "latex_command_options" pl), (OptionExists "gs_command" pl),
      (OptionExists "warning_boundary_boxes" pl),
      (OptionExists "warning_ai_not_saved" pl);
      cbn [negb andb]; intros Hm;
      first [reflexivity
            | exfalso; apply (f_equal length) in Hm; cbn [length] in Hm; discriminate Hm].
  - revert Hmissing.
    unfold missing_keys, OptionExists, overlay_field, GetIntOption, GetStringOption.
    cbn [List.filter recognized_keys
           latex_bin_path_ latex_engine_ latex_command_options_ gs_command_
           warning_boundary_boxes_ warning_ai_not_saved_ is_testing_
           application_data_path_ l2a_item_last_input_].
    destruct (pl !! "latex_bin_path"), (pl !! "latex_engine"),
      (pl !! "latex_command_options"), (pl !! "gs_command"),
      (pl !! "warning_boundary_boxes"), (pl !! "warning_ai_not_saved");
      cbn; intros Hm;
      first [exfalso; apply (f_equal length) in Hm; cbn [length] in Hm; discriminate Hm
            | injection Hm as <-; repeat split; reflexivity].
Qed.

End SerializationFacts.

(** ** The validation predicates *)

Section ValidationFacts.
Context {W : Type} `{!Host W}.

Lemma assignments_app (a b : list event) :
  assignments (a ++ b) = assignments a ++ assignments b.
Proof. apply List.filter_app. Qed.

Lemma cancels_app (a b : list event) : cancels (a ++ b) = cancels a ++ cancels b.
Proof. apply List.filter_app. Qed.

Lemma confirmations_app (a b : list event) :
  confirmations (a ++ b) = confirmations a ++ confirmations b.
Proof. apply List.filter_app. Qed.

Lemma latex_steps_app (a b : list event) :
  latex_steps (a ++ b) = latex_steps a ++ latex_steps b.
Proof. apply List.filter_app. Qed.

(** One run of [CheckGhostscriptCommand], spelled out. *)
Lemma CheckGhostscriptCommand_run (gs_command : string) (s : state W) :
  CheckGhostscriptCommand gs_command s =
  let cmd := dquote +:+ gs_command +:+ dquote +:+ " -v" in
  let rw := host_ExecuteCommandLine cmd true (world s) in
  (Ret (probe " Ghostscript " rw.1),
   mkState (glob s) rw.2 (log s ++ [EvExecuteCommandLine cmd true rw.1])).
Proof.
  unfold CheckGhostscriptCommand, try_catch, ExecuteCommandLine, bind, call, raise, pure.
  cbn zeta.
  destruct (host_ExecuteCommandLine _ true (world s)) as [[e|out] w]; cbn.
  - destruct e; reflexivity.
  - destruct (found out " Ghostscript "); reflexivity.
Qed.

(** One run of [CheckLatexCommand], spelled out. *)
Lemma CheckLatexCommand_run (path_latex : FilePath) (s : state W) :
  CheckLatexCommand path_latex s =
  let dw := host_IsDirectory path_latex (world s) in
  match command_latex dw.1 path_latex with
  | None =>
      (Ret false,
       mkState (glob s) dw.2 (log s ++ [EvIsDirectory path_latex dw.1]))
  | Some c =>
      let cmd := c +:+ " -version" in
      let rw := host_ExecuteCommandLine cmd true dw.2 in
      (Ret (probe "pdfTeX" rw.1),
       mkState (glob s) rw.2
         (log s ++ [EvIsDirectory path_latex dw.1; EvExecuteCommandLine cmd true rw.1]))
  end.
Proof.
  unfold CheckLatexCommand, IsDirectory. unfold bind at 1, call at 1. cbn zeta.
  destruct (host_IsDirectory path_latex (world s)) as [d w1]. cbn [fst snd].
  destruct (command_latex d path_latex) as [c|]; [|reflexivity].
  unfold try_catch, ExecuteCommandLine, bind, call, raise, pure. cbn [world glob log].
  destruct (host_ExecuteCommandLine _ true w1) as [[e|out] w2]; cbn;
    rewrite <- app_assoc; cbn.
  - destruct e; reflexivity.
  - destruct (found out "pdfTeX"); reflexivity.
Qed.

(** C4: [CheckGhostscriptCommand] runs exactly one command, the candidate
    between double quotes followed by [ -v], with captured output; it
    returns [true] exactly when the output contains [ Ghostscript ],
    returns [false] when the command cannot be run, never throws, and
    leaves the object as it was. *)
Theorem CheckGhostscriptCommand_spec (gs_command : string) (s : state W) :
  let cmd := dquote +:+ gs_command +:+ dquote +:+ " -v" in
  exists (r : exn + string) (w : W) (b : bool),
    host_ExecuteCommandLine cmd true (world s) = (r, w)
    /\ CheckGhostscriptCommand gs_command s =
         (Ret b, mkState (glob s) w (log s ++ [EvExecuteCommandLine cmd true r]))
    /\ probe_result " Ghostscript " r b.
Proof.
  intros cmd. rewrite CheckGhostscriptCommand_run. cbn zeta. fold cmd.
  destruct (host_ExecuteCommandLine cmd true (world s)) as [r w].
  exists r, w, (probe " Ghostscript " r).
  split; [reflexivity|]. split; [reflexivity|]. apply probe_probe_result.
Qed.

(** C5: [CheckLatexCommand] first asks whether the candidate is a
    directory.  If it is, the command run is the quoted path of [pdflatex]
    (with [.exe] on Windows) below the candidate, followed by [ -version];
    if it is not and the candidate is empty, the command run is
    [pdflatex -version]; if it is not and the candidate is not empty, the
    answer is [false] and no command is run.  When a command is run, the
    answer is [true] exactly when its output contains [pdfTeX], and [false]
    when it cannot be run. *)
Theorem CheckLatexCommand_spec (path_latex : FilePath) (s : state W)
    (d : bool) (w1 : W)
    (Hdir : host_IsDirectory path_latex (world s) = (d, w1)) :
  let binary := if WIN_ENV then "pdflatex.exe" else "pdflatex" in
  let quoted := dquote +:+ GetFullPath (AddComponent binary path_latex) +:+ dquote in
  (d = true ->
   exists r w2 b,
     host_ExecuteCommandLine (quoted +:+ " -version") true w1 = (r, w2)
     /\ CheckLatexCommand path_latex s =
          (Ret b, mkState (glob s) w2
                    (log s ++ [EvIsDirectory path_latex true;
                               EvExecuteCommandLine (quoted +:+ " -version") true r]))
     /\ probe_result "pdfTeX" r b)
  /\ (d = false -> path_latex = mkFilePath EmptyString ->
      exists r w2 b,
        host_ExecuteCommandLine "pdflatex -version" true w1 = (r, w2)
        /\ CheckLatexCommand path_latex s =
             (Ret b, mkState (glob s) w2
                       (log s ++ [EvIsDirectory path_latex false;
                                  EvExecuteCommandLine "pdflatex -version" true r]))
        /\ probe_result "pdfTeX" r b)
  /\ (d = false -> path_latex <> mkFilePath EmptyString ->
      CheckLatexCommand path_latex s =
        (Ret false, mkState (glob s) w1 (log s ++ [EvIsDirectory path_latex false]))).
Proof.
  intros binary quoted. rewrite CheckLatexCommand_run, Hdir. cbn [fst snd].
  split; [|split].
  - intros ->. unfold command_latex. fold binary. fold quoted. cbn zeta.
    destruct (host_ExecuteCommandLine (quoted +:+ " -version") true w1) as [r w2].
    exists r, w2, (probe "pdfTeX" r).
    split; [reflexivity|]. split; [reflexivity|]. apply probe_probe_result.
  - intros -> ->. cbn.
    change ("pdflatex" +:+ " -version") with "pdflatex -version".
    destruct (host_ExecuteCommandLine "pdflatex -version" true w1) as [r w2].
    exists r, w2, (probe "pdfTeX" r).
    split; [reflexivity|]. split; [reflexivity|]. apply probe_probe_result.
  - intros -> Hne. unfold command_latex, IsEmpty.
    destruct path_latex as [[|c p]]; [done|reflexivity].
Qed.

(** C9: the object plays no part in [CheckLatexCommand].  Run on the same
    candidate in the same world with any two objects, in particular two
    that differ in [latex_engine_], it gives the same answer, moves the
    world in the same way, adds the same entries to the log and so runs the
    same command, which names [pdflatex] and nothing else. *)
Theorem CheckLatexCommand_ignores_object (path_latex : FilePath)
    (g : Global) (engine : string) (w : W) (l : list event) :
  exists (b : bool) (w' : W) (evs : list event),
    CheckLatexCommand path_latex (mkState g w l) = (Ret b, mkState g w' (l ++ evs))
    /\ CheckLatexCommand path_latex (mkState (set_latex_engine_ engine g) w l)
       = (Ret b, mkState (set_latex_engine_ engine g) w' (l ++ evs))
    /\ (forall g2 : Global,
          CheckLatexCommand path_latex (mkState g2 w l)
          = (Ret b, mkState g2 w' (l ++ evs)))
    /\ (forall cmd capture r, EvExecuteCommandLine cmd capture r ∈ evs ->
          cmd = "pdflatex -version"
          \/ cmd = (dquote +:+ GetFullPath
                      (AddComponent (if WIN_ENV then "pdflatex.exe" else "pdflatex")
                         path_latex) +:+ dquote) +:+ " -version").
Proof.
  assert (Hany : exists (b : bool) (w' : W) (evs : list event),
    (forall g2 : Global,
        CheckLatexCommand path_latex (mkState g2 w l) = (Ret b, mkState g2 w' (l ++ evs)))
    /\ (forall cmd capture r, EvExecuteCommandLine cmd capture r ∈ evs ->
          cmd = "pdflatex -version"
          \/ cmd = (dquote +:+ GetFullPath
                      (AddComponent (if WIN_ENV then "pdflatex.exe" else "pdflatex")
                         path_latex) +:+ dquote) +:+ " -version")).
  { destruct (host_IsDirectory path_latex w) as [d w1] eqn:Hdir.
    destruct (command_latex d path_latex) as [c|] eqn:Hc.
    - destruct (host_ExecuteCommandLine (c +:+ " -version") true w1) as [r w2] eqn:Hx.
      exists (probe "pdfTeX" r), w2,
        [EvIsDirectory path_latex d; EvExecuteCommandLine (c +:+ " -version") true r].
      split.
      + intros g2. rewrite CheckLatexCommand_run. cbn [world glob log].
        rewrite Hdir. cbn [fst snd]. rewrite Hc. cbn zeta. rewrite Hx. reflexivity.
      + intros cmd capture r' Hin.
        apply elem_of_cons in Hin as [Hin|Hin]; [discriminate|].
        apply list_elem_of_singleton in Hin. injection Hin as -> _ _.
        unfold command_latex in Hc. destruct d.
        * right. injection Hc as <-. reflexivity.
        * left. destruct (IsEmpty path_latex); [|discriminate].
          injection Hc as <-. reflexivity.
    - exists false, w1, [EvIsDirectory path_latex d]. split.
      + intros g2. rewrite CheckLatexCommand_run. cbn [world glob log].
        rewrite Hdir. cbn [fst snd]. rewrite Hc. reflexivity.
      + intros cmd capture r' Hin. apply list_elem_of_singleton in Hin. discriminate. }
  destruct Hany as (b & w' & evs & Hrun & Hcmd).
  exists b, w', evs. auto.
Qed.

End ValidationFacts.

(** ** The repair-setters *)

Section RepairFacts.
Context {W : Type} `{!Host W}.

(** A loop that satisfies its specification from a later state satisfies it
    from an earlier one, when what happened in between was neither an
    assignment nor a cancellation. *)
Lemma loop_spec_later {A} (validated : A -> list event -> Prop) (rounds : nat)
    (s s1 : state W) (res : outcome (option A) * state W) (pre : list event) :
  (forall c evs, validated c evs -> validated c (pre ++ evs)) ->
  glob s1 = glob s -> log s1 = log s ++ pre ->
  assignments pre = [] -> cancels pre = [] ->
  loop_spec validated rounds s1 res ->
  loop_spec validated (length (confirmations pre) + rounds) s res.
Proof.
  intros Hval Hg Hl Ha Hc (Hg' & evs & Hl' & Ha' & Hres).
  split; [congruence|]. exists (pre ++ evs).
  split; [rewrite Hl', Hl, app_assoc; done|].
  split; [rewrite assignments_app, Ha, Ha'; done|].
  destruct res as [[[c|]|e|] s2]; cbn in *.
  - destruct Hres as [Hc' Hv]. split; [rewrite cancels_app, Hc, Hc'; done|auto].
  - destruct Hres as (pre' & ev & -> & Hev & Hc').
    exists (pre ++ pre'), ev. rewrite app_assoc, cancels_app, Hc, Hc'. done.
  - rewrite cancels_app, Hc, Hres; done.
  - destruct Hres as [Hc' Hn]. split; [rewrite cancels_app, Hc, Hc'; done|].
    rewrite confirmations_app, length_app, Hn. reflexivity.
Qed.

Lemma gs_validated_later (c : string) (pre evs : list event) :
  gs_validated c evs -> gs_validated c (pre ++ evs).
Proof.
  intros (pre' & out & -> & Hf). exists (pre ++ pre'), out. by rewrite app_assoc.
Qed.

Lemma latex_validated_later (p : FilePath) (pre evs : list event) :
  latex_validated p evs -> latex_validated p (pre ++ evs).
Proof.
  intros (pre' & d & cmd & out & -> & Hc & Hf).
  exists (pre ++ pre'), d, cmd, out. by rewrite app_assoc.
Qed.

Lemma SetGhostscriptCommand_while_spec (fuel : nat) :
  forall (c : string) (p : FilePath) (s : state W),
    loop_spec gs_validated fuel s (SetGhostscriptCommand_while fuel c p s).
Proof.
  induction fuel as [|fuel IH]; intros c p s.
  - split; [done|]. exists []. cbn. rewrite app_nil_r. done.
  - cbn [SetGhostscriptCommand_while]. unfold bind at 1.
    rewrite CheckGhostscriptCommand_run. cbn zeta.
    destruct (host_ExecuteCommandLine _ true (world s)) as [r w] eqn:Hexec.
    cbn [fst snd].
    set (ev1 := EvExecuteCommandLine _ true r).
    assert (Hvalid : probe " Ghostscript " r = true -> gs_validated c [ev1]).
    { destruct r as [e|out]; [done|]. intros Hf. by exists [], out. }
    destruct (probe " Ghostscript " r).
    { split; [done|]. exists [ev1]. cbn. split; [done|]. split; [by destruct r|].
      split; [by destruct r|auto]. }
    clear Hvalid.
    unfold bind at 1, OKCancelAlert, call at 1; cbn [world glob log].
    destruct (host_OKCancelAlert gs_form_string true w) as [[|] w2] eqn:Hok; cbn [negb].
    2:{ split; [done|]. cbn. eexists [ev1; _]. split; [by rewrite <- app_assoc|].
        split; [by destruct r|]. exists [ev1], (EvOKCancelAlert gs_form_string true false).
        split; [done|]. split; [done|by destruct r]. }
    unfold bind at 1, GetFileDialog, call at 1; cbn [world glob log].
    destruct (host_GetFileDialog dialog_message gs_dialog_filters p w2)
      as [[err p'] w3] eqn:Hpick.
    set (ev2 := EvOKCancelAlert gs_form_string true true).
    set (ev3 := EvGetFileDialog _ _ _ _).
    assert (Hpre : forall l : list event,
               ((l ++ [ev1]) ++ [ev2]) ++ [ev3] = l ++ [ev1; ev2; ev3])
      by (intros l; by rewrite <- !app_assoc).
    assert (Ha : assignments [ev1; ev2; ev3] = []) by (by destruct r).
    destruct err as [| |code]; cbn.
    + change (S fuel) with (length (confirmations [ev1; ev2; ev3]) + fuel)%nat.
      eapply loop_spec_later;
        [intros; by apply gs_validated_later| | | exact Ha | | apply IH]; cbn.
      * done.
      * apply Hpre.
      * by destruct r.
    + split; [done|]. cbn. exists [ev1; ev2; ev3]. split; [apply Hpre|].
      split; [exact Ha|]. exists [ev1; ev2], ev3. split; [done|].
      split; [done|by destruct r].
    + split; [done|]. cbn. exists [ev1; ev2; ev3]. split; [apply Hpre|].
      split; [exact Ha|]. by destruct r.
Qed.

(** A typesetting check adds one or two entries, none of them an assignment,
    a cancellation or a confirmation, and a positive answer comes with a
    successful probe. *)
Lemma CheckLatexCommand_events (p : FilePath) (s : state W) :
  exists (b : bool) (w : W) (evs : list event),
    CheckLatexCommand p s = (Ret b, mkState (glob s) w (log s ++ evs))
    /\ assignments evs = [] /\ cancels evs = [] /\ confirmations evs = []
    /\ (b = true -> latex_validated p evs).
Proof.
  rewrite CheckLatexCommand_run. cbn zeta.
  destruct (host_IsDirectory p (world s)) as [d w1]. cbn [fst snd].
  destruct (command_latex d p) as [c|] eqn:Hc.
  - destruct (host_ExecuteCommandLine (c +:+ " -version") true w1) as [r w2].
    cbn [fst snd]. eexists _, _, [_; _]. split; [reflexivity|].
    repeat split; try done.
    destruct r as [e|out]; [done|]. intros Hf. by exists [], d, c, out.
  - eexists _, _, [_]. split; [reflexivity|]. repeat split; done.
Qed.

Lemma SetLatexCommand_while_spec (fuel : nat) :
  forall (p : FilePath) (s : state W),
    loop_spec latex_validated fuel s (SetLatexCommand_while fuel p s).
Proof.
  induction fuel as [|fuel IH]; intros p s.
  - split; [done|]. exists []. cbn. rewrite app_nil_r. done.
  - cbn [SetLatexCommand_while]. unfold bind at 1.
    destruct (CheckLatexCommand_events p s) as (b & w & evs & -> & Ha & Hc & Hn & Hv).
    destruct b.
    { split; [done|]. exists evs. cbn. auto. }
    clear Hv.
    unfold bind at 1, OKCancelAlert, call at 1; cbn [world glob log].
    destruct (host_OKCancelAlert latex_form_string true w) as [[|] w2] eqn:Hok;
      cbn [negb].
    2:{ split; [done|]. cbn. exists (evs ++ [EvOKCancelAlert latex_form_string true false]).
        split; [by rewrite <- app_assoc|].
        split; [by rewrite assignments_app, Ha|].
        by exists evs, (EvOKCancelAlert latex_form_string true false). }
    unfold bind at 1, GetDirectoryDialog, call at 1; cbn [world glob log].
    destruct (host_GetDirectoryDialog dialog_message p w2) as [[err p'] w3] eqn:Hpick.
    set (ev2 := EvOKCancelAlert latex_form_string true true).
    set (ev3 := EvGetDirectoryDialog _ _ _).
    assert (Hpre : forall l : list event,
               ((l ++ evs) ++ [ev2]) ++ [ev3] = l ++ (evs ++ [ev2; ev3]))
      by (intros l; by rewrite <- !app_assoc).
    assert (Ha' : assignments (evs ++ [ev2; ev3]) = [])
      by (by rewrite assignments_app, Ha).
    destruct err as [| |code]; cbn.
    + replace (S fuel) with (length (confirmations (evs ++ [ev2; ev3])) + fuel)%nat
        by (by rewrite confirmations_app, Hn).
      eapply loop_spec_later;
        [intros; by apply latex_validated_later| | | exact Ha' | | apply IH]; cbn.
      * done.
      * apply Hpre.
      * by rewrite cancels_app, Hc.
    + split; [done|]. cbn. exists (evs ++ [ev2; ev3]). split; [apply Hpre|].
      split; [exact Ha'|]. exists (evs ++ [ev2]), ev3.
      split; [by rewrite <- app_assoc|]. split; [done|by rewrite cancels_app, Hc].
    + split; [done|]. cbn. exists (evs ++ [ev2; ev3]). split; [apply Hpre|].
      split; [exact Ha'|]. by rewrite cancels_app, Hc.
Qed.

(** From the loop to the setter: the commit is the only assignment. *)
Lemma repair_spec_of_loop {A} (assign : A -> event) (store : A -> Global -> Global)
    (validated : A -> list event -> Prop) (fuel : nat) (s : state W)
    (loop : M W (option A)) (commit : A -> M W unit) :
  (forall c, is_assignment (assign c) = true /\ is_cancel (assign c) = false) ->
  (forall c s', commit c s' =
     (Ret tt, mkState (store c (glob s')) (world s') (log s' ++ [assign c]))) ->
  loop_spec validated fuel s (loop s) ->
  repair_spec assign store validated fuel s
    ((r <- loop ;;
      match r with
      | None => pure false
      | Some c => commit c;; pure true
      end) s).
Proof.
  intros Hassign Hcommit (Hg & evs & Hl & Ha & Hres).
  unfold bind at 1. destruct (loop s) as [[[c|]|e|] s1]; cbn in *.
  - destruct Hres as [Hc Hv]. unfold bind, pure. rewrite Hcommit. cbn.
    exists (evs ++ [assign c]). split; [by rewrite Hl, app_assoc|]. split.
    + rewrite cancels_app, Hc. cbn. by destruct (Hassign c) as [_ ->].
    + exists c, evs. rewrite Hg. done.
  - exists evs. destruct Hres as (pre & ev & -> & Hev & Hc). repeat split; eauto.
  - exists evs. repeat split; done.
  - exists evs. destruct Hres as [Hc Hn]. repeat split; done.
Qed.

Lemma SetGhostscriptCommand_repair (fuel : nat) (gs_command : string) (s : state W) :
  repair_spec EvAssign_gs_command_ set_gs_command_ gs_validated fuel s
    (SetGhostscriptCommand fuel gs_command s).
Proof.
  unfold SetGhostscriptCommand. cbn zeta.
  apply (repair_spec_of_loop _ _ _ _ _ _ assign_gs_command_);
    [done | done | apply SetGhostscriptCommand_while_spec].
Qed.

Lemma SetLatexCommand_repair (fuel : nat) (latex_path : FilePath) (s : state W) :
  repair_spec EvAssign_latex_bin_path_ set_latex_bin_path_ latex_validated fuel s
    (SetLatexCommand fuel latex_path s).
Proof.
  unfold SetLatexCommand. cbn zeta.
  apply (repair_spec_of_loop _ _ _ _ _ _ assign_latex_bin_path_);
    [done | done | apply SetLatexCommand_while_spec].
Qed.

(** C6: for both repair-setters, whatever the user answers and whatever
    the probes print: on success the field is assigned once, as the last
    thing that happens and right after the successful validation of the
    value stored; on every other outcome it is not assigned at all and the
    object is as before; and as soon as the user cancels an alert or a
    dialog the setter returns [false].  The fuel can only run out after
    that many confirmations of the user. *)
Theorem repair_setters_commit_once (fuel : nat) (s : state W) :
  (forall gs_command : string,
      repair_spec EvAssign_gs_command_ set_gs_command_ gs_validated fuel s
        (SetGhostscriptCommand fuel gs_command s))
  /\ (forall latex_path : FilePath,
        repair_spec EvAssign_latex_bin_path_ set_latex_bin_path_ latex_validated fuel s
          (SetLatexCommand fuel latex_path s)).
Proof.
  split; intros c; [apply SetGhostscriptCommand_repair | apply SetLatexCommand_repair].
Qed.

(** C10: [SetGhostscriptCommand] changes no field other than [gs_command_]
    and [SetLatexCommand] no field other than [latex_bin_path_], however
    the call ends. *)
Theorem repair_setters_frame (fuel : nat) (s : state W) :
  (forall gs_command : string,
      same_except_gs_command_ (glob s)
        (glob (SetGhostscriptCommand fuel gs_command s).2))
  /\ (forall latex_path : FilePath,
        same_except_latex_bin_path_ (glob s)
          (glob (SetLatexCommand fuel latex_path s).2)).
Proof.
  split.
  - intros c. destruct (SetGhostscriptCommand_repair fuel c s) as (evs & _ & _ & H).
    destruct (SetGhostscriptCommand fuel c s) as [[[|]|e|] s']; cbn in *.
    + destruct H as (c' & pre & _ & _ & _ & ->). by destruct (glob s).
    + destruct H as (_ & -> & _). by destruct (glob s).
    + destruct H as (_ & ->). by destruct (glob s).
    + destruct H as (_ & -> & _). by destruct (glob s).
  - intros p. destruct (SetLatexCommand_repair fuel p s) as (evs & _ & _ & H).
    destruct (SetLatexCommand fuel p s) as [[[|]|e|] s']; cbn in *.
    + destruct H as (c' & pre & _ & _ & _ & ->). by destruct (glob s).
    + destruct H as (_ & -> & _). by destruct (glob s).
    + destruct H as (_ & ->). by destruct (glob s).
    + destruct H as (_ & -> & _). by destruct (glob s).
Qed.

End RepairFacts.

(** ** The constructor *)

Section ConstructorFacts.
Context {W : Type} `{!Host W}.

(** The renderer loop produces no entry of the typesetting step. *)
Lemma SetGhostscriptCommand_while_no_latex_steps (fuel : nat) :
  forall (c : string) (p : FilePath) (s : state W),
    exists evs, log (SetGhostscriptCommand_while fuel c p s).2 = log s ++ evs
                /\ latex_steps evs = [].
Proof.
  induction fuel as [|fuel IH]; intros c p s.
  - exists []. cbn. by rewrite app_nil_r.
  - cbn [SetGhostscriptCommand_while]. unfold bind at 1.
    rewrite CheckGhostscriptCommand_run. cbn zeta.
    destruct (host_ExecuteCommandLine _ true (world s)) as [r w]. cbn [fst snd].
    set (ev1 := EvExecuteCommandLine _ true r).
    destruct (probe " Ghostscript " r); [by exists [ev1]|].
    unfold bind at 1, OKCancelAlert, call at 1; cbn [world glob log].
    destruct (host_OKCancelAlert gs_form_string true w) as [[|] w2]; cbn [negb].
    2:{ eexists [ev1; _]. cbn. by rewrite <- app_assoc. }
    unfold bind at 1, GetFileDialog, call at 1; cbn [world glob log].
    destruct (host_GetFileDialog dialog_message gs_dialog_filters p w2) as [[err p'] w3].
    set (ev2 := EvOKCancelAlert gs_form_string true true).
    set (ev3 := EvGetFileDialog _ _ _ _).
    assert (Hpre : forall l : list event,
               ((l ++ [ev1]) ++ [ev2]) ++ [ev3] = l ++ [ev1; ev2; ev3])
      by (intros l; by rewrite <- !app_assoc).
    destruct (decide (err = kCanceledErr)) as [->|Hne].
    { exists [ev1; ev2; ev3]. cbn. by rewrite Hpre. }
    destruct err as [| |code]; [|done|].
    + unfold l2a_check_ai_error. unfold bind at 1. unfold pure at 1.
      match goal with
      | |- context [SetGhostscriptCommand_while fuel ?c' ?p' ?s'] =>
          destruct (IH c' p' s') as (evs & -> & Hl)
      end.
      cbn [log]. exists ([ev1; ev2; ev3] ++ evs).
      split; [by rewrite Hpre, app_assoc|]. by rewrite latex_steps_app, Hl.
    + exists [ev1; ev2; ev3]. cbn. by rewrite Hpre.
Qed.

Lemma SetGhostscriptCommand_no_latex_steps (fuel : nat) (c : string) (s : state W) :
  exists evs, log (SetGhostscriptCommand fuel c s).2 = log s ++ evs
              /\ latex_steps evs = [].
Proof.
  unfold SetGhostscriptCommand. cbn zeta. unfold bind at 1.
  destruct (SetGhostscriptCommand_while_no_latex_steps fuel c (mkFilePath c) s)
    as (evs & Hl & Hn).
  destruct (SetGhostscriptCommand_while fuel c (mkFilePath c) s) as [[[c'|]|e|] s1];
    cbn in *; [|by exists evs..].
  exists (evs ++ [EvAssign_gs_command_ c']).
  split; [by rewrite Hl, app_assoc|]. by rewrite latex_steps_app, Hn.
Qed.

Lemma CheckGhostscriptCommand_frame (c : string) (s s1 : state W) (o : outcome bool) :
  CheckGhostscriptCommand c s = (o, s1) ->
  glob s1 = glob s /\ exists ev, log s1 = log s ++ [ev] /\ is_latex_step ev = false.
Proof.
  rewrite CheckGhostscriptCommand_run. cbn zeta. intros [= _ <-]. cbn. eauto.
Qed.

Lemma GetGhostScriptCommand_frame (s s1 : state W) (o : outcome string) :
  GetGhostScriptCommand s = (o, s1) ->
  glob s1 = glob s /\ exists ev, log s1 = log s ++ [ev] /\ is_latex_step ev = false.
Proof.
  unfold GetGhostScriptCommand, call.
  destruct (host_GetGhostScriptCommand (world s)) as [c w]. intros [= _ <-]. cbn. eauto.
Qed.

(** C7: in the part of the constructor that validates the two tools,
    - when the stored renderer command fails its check and the repair-setter
      called on the discovered command returns [false], the constructor
      returns there: its final state is the one the setter left, the object
      is as it was, and the log has no entry of the typesetting step;
    - when the renderer step lets the constructor go on and the stored
      typesetting path fails its check, [latex_bin_path_] is first assigned
      the empty path and the repair-setter then runs, on the empty path,
      from that state; if it returns [false] the field stays empty. *)
Theorem Global_validate_aborts (fuel : nat) (s : state W) :
  let s0 := mkState (glob s) (host_ClearTemporaryDirectory (world s))
              (log s ++ [EvClearTemporaryDirectory]) in
  (forall (s1 s2 s3 : state W) (discovered : string),
      CheckGhostscriptCommand (gs_command_ (glob s)) s0 = (Ret false, s1) ->
      GetGhostScriptCommand s1 = (Ret discovered, s2) ->
      SetGhostscriptCommand fuel discovered s2 = (Ret false, s3) ->
      Global_validate fuel s = (Ret tt, s3)
      /\ glob s3 = glob s
      /\ exists evs, log s3 = log s ++ evs /\ latex_steps evs = [])
  /\ (forall s4 s5 : state W,
        Global_check_gs fuel s0 = (Ret true, s4) ->
        CheckLatexCommand (latex_bin_path_ (glob s4)) s4 = (Ret false, s5) ->
        let empty := mkFilePath EmptyString in
        let s6 := mkState (set_latex_bin_path_ empty (glob s5)) (world s5)
                    (log s5 ++ [EvAssign_latex_bin_path_ empty]) in
        let res := SetLatexCommand fuel empty s6 in
        Global_validate fuel s = (void res.1, res.2)
        /\ (res.1 = Ret false -> latex_bin_path_ (glob res.2) = empty)).
Proof.
  intros s0. split.
  - intros s1 s2 s3 discovered Hcheck Hfind Hset.
    assert (Hgs : Global_check_gs fuel s0 = (Ret false, s3)).
    { unfold Global_check_gs, this. unfold bind at 1. unfold bind at 1.
      change (glob s0) with (glob s). rewrite Hcheck. cbn [negb]. unfold bind at 1.
      rewrite Hfind. exact Hset. }
    split; [|split].
    + unfold Global_validate, ClearTemporaryDirectory, call_, call. unfold bind at 1.
      cbn zeta. fold s0. unfold bind at 1. rewrite Hgs. reflexivity.
    + destruct (CheckGhostscriptCommand_frame _ _ _ _ Hcheck) as (Hg1 & _).
      destruct (GetGhostScriptCommand_frame _ _ _ Hfind) as (Hg2 & _).
      destruct (SetGhostscriptCommand_repair fuel discovered s2) as (evs & _ & _ & H).
      rewrite Hset in H. cbn in H. destruct H as (_ & -> & _). by rewrite Hg2, Hg1.
    + destruct (CheckGhostscriptCommand_frame _ _ _ _ Hcheck) as (_ & ev1 & Hl1 & Hn1).
      destruct (GetGhostScriptCommand_frame _ _ _ Hfind) as (_ & ev2 & Hl2 & Hn2).
      destruct (SetGhostscriptCommand_no_latex_steps fuel discovered s2) as (evs & Hl & Hn).
      rewrite Hset in Hl. cbn [snd] in Hl.
      exists ([EvClearTemporaryDirectory; ev1; ev2] ++ evs).
      split.
      * rewrite Hl, Hl2, Hl1. cbn [log s0]. by rewrite <- !app_assoc.
      * rewrite latex_steps_app, Hn, app_nil_r. unfold latex_steps. cbn.
        by rewrite Hn1, Hn2.
  - intros s4 s5 Hgs Hcheck empty s6 res.
    assert (Hrun : Global_validate fuel s = (void res.1, res.2)).
    { unfold Global_validate, ClearTemporaryDirectory, call_, call. unfold bind at 1.
      cbn zeta. fold s0. unfold bind at 1. rewrite Hgs.
      unfold Global_check_latex, this. unfold bind at 1. unfold bind at 1.
      rewrite Hcheck. cbn [negb].
      unfold assign_latex_bin_path_, modify, record, bind, pure. cbn [glob world log].
      fold empty. fold s6.
      change (latex_bin_path_ (set_latex_bin_path_ empty (glob s5))) with empty.
      fold res. by destruct res as [[b|e|] s7]. }
    split; [exact Hrun|].
    intros Hfalse.
    destruct (SetLatexCommand_repair fuel empty s6) as (evs & _ & _ & H).
    fold res in H. rewrite Hfalse in H. destruct H as (_ & -> & _). reflexivity.
Qed.

(** The object after "Set the default parameters" holds the defaults,
    provided the default [true] survives the two integer conversions. *)
Lemma GetDefaultParameterList_config (g : Global) :
  StringToInteger (IntegerToString 1) = 1%Z ->
  config (SetFromParameterList StringToInteger
            (GetDefaultParameterList IntegerToString ∅) g).2 = default_config.
Proof.
  intros Hone. rewrite SetFromParameterList_spec.
  unfold GetDefaultParameterList, SetOption_bool, SetOption_int, SetOption,
    overlay_field, config, default_config, ParameterList.t.
  cbn [snd latex_bin_path_ latex_engine_ latex_command_options_ gs_command_
         warning_boundary_boxes_ warning_ai_not_saved_ Z.b2z].
  rewrite ?lookup_insert_ne by done. rewrite !lookup_insert_eq.
  rewrite ?lookup_insert_ne by done. rewrite !lookup_insert_eq.
  rewrite ?lookup_insert_ne by done. rewrite !lookup_insert_eq.
  rewrite ?lookup_insert_ne by done. rewrite !lookup_insert_eq.
  rewrite ?lookup_insert_ne by done. rewrite !lookup_insert_eq.
  rewrite ?lookup_insert_ne by done. rewrite ?lookup_insert_eq.
  rewrite Hone. reflexivity.
Qed.

Lemma config_set_paths (a b : FilePath) (g : Global) :
  config (set_l2a_item_last_input_ a (set_application_data_path_ b g)) = config g.
Proof. by destruct g. Qed.

Lemma Global_set_defaults_run (s : state W) :
  Global_set_defaults s =
  (Ret tt,
   mkState
     (SetFromParameterList StringToInteger (GetDefaultParameterList IntegerToString ∅)
        (set_is_testing_ false (glob s))).2
     (host_CheckGithubVersion (world s))
     (log s ++ [EvCheckGithubVersion])).
Proof.
  unfold Global_set_defaults, L2A_CheckGithubVersion, call_SetFromParameterList,
    call_, call, modify, bind, pure. cbn [glob world log].
  by destruct (SetFromParameterList _ _ _).
Qed.

Lemma Global_set_paths_run (s : state W) :
  Global_set_paths s =
  let dw := host_GetApplicationDataDirectory (world s) in
  (Ret tt,
   mkState
     (set_l2a_item_last_input_ (AddComponent "LaTeX2AI_last_input.xml" dw.1)
        (set_application_data_path_
           (AddComponent "LaTeX2AI_application_data.xml" dw.1) (glob s)))
     (host_CreateDirectoryL2A dw.1 dw.2)
     (log s ++ [EvGetApplicationDataDirectory dw.1; EvCreateDirectoryL2A dw.1])).
Proof.
  unfold Global_set_paths, GetApplicationDataDirectory, CreateDirectoryL2A,
    call_, call, modify, bind, pure. cbn [glob world log].
  destruct (host_GetApplicationDataDirectory (world s)) as [dir w1]. cbn.
  by rewrite <- app_assoc.
Qed.

(** The load step on a settings file that cannot be parsed. *)
Lemma Global_load_settings_corrupt (s : state W) (w1 w2 : W) (xml_string : string) :
  host_IsFile (application_data_path_ (glob s)) (world s) = (true, w1) ->
  host_ReadFileUTF8 (application_data_path_ (glob s)) w1 = (xml_string, w2) ->
  ParameterList_of_xml xml_string = None ->
  Global_load_settings s =
  (Ret tt,
   mkState (glob s) (host_RemoveFile (application_data_path_ (glob s)) w2)
     (log s ++ [EvIsFile (application_data_path_ (glob s)) true;
                EvReadFileUTF8 (application_data_path_ (glob s)) xml_string;
                EvRemoveFile (application_data_path_ (glob s))])).
Proof.
  intros Hfile Hread Hparse.
  unfold Global_load_settings, this, IsFile, ReadFileUTF8, RemoveFile, ParameterList_ctor,
    try_catch, l2a_error, raise, call_, call, bind, pure. cbn [glob world log].
  rewrite Hfile. cbn [glob world log]. rewrite Hread, Hparse. cbn.
  by rewrite <- !app_assoc.
Qed.

(** C3: when the settings file exists and the parameter list cannot be
    built from its contents, the load step removes that file, does not
    throw, and leaves the object with the six defaults; the constructor
    then goes on with its validation steps from exactly that state, so
    nothing of the unreadable file influences what follows. *)
Theorem Global_ctor_corrupt_settings (fuel : nat) (s0 : state W)
    (dir : FilePath) (w1 w3 w4 : W) (xml_string : string) :
  let path := AddComponent "LaTeX2AI_application_data.xml" dir in
  StringToInteger (IntegerToString 1) = 1%Z ->
  host_GetApplicationDataDirectory (host_CheckGithubVersion (world s0)) = (dir, w1) ->
  host_IsFile path (host_CreateDirectoryL2A dir w1) = (true, w3) ->
  host_ReadFileUTF8 path w3 = (xml_string, w4) ->
  ParameterList_of_xml xml_string = None ->
  exists s2 : state W,
    (Global_set_defaults;; Global_set_paths;; Global_load_settings) s0 = (Ret tt, s2)
    /\ config (glob s2) = default_config
    /\ application_data_path_ (glob s2) = path
    /\ world s2 = host_RemoveFile path w4
    /\ log s2 = log s0 ++ [EvCheckGithubVersion;
                           EvGetApplicationDataDirectory dir;
                           EvCreateDirectoryL2A dir;
                           EvIsFile path true;
                           EvReadFileUTF8 path xml_string;
                           EvRemoveFile path]
    /\ Global_ctor fuel s0 = Global_validate fuel s2.
Proof.
  intros path Hone Hdir Hfile Hread Hparse.
  pose proof (Global_set_defaults_run s0) as H1.
  set (s1 := mkState _ _ _) in H1.
  pose proof (Global_set_paths_run s1) as H2. cbn zeta in H2.
  change (world s1) with (host_CheckGithubVersion (world s0)) in H2.
  rewrite Hdir in H2. cbn [fst snd] in H2. fold path in H2.
  set (s1' := mkState _ _ _) in H2.
  pose proof (Global_load_settings_corrupt s1' w3 w4 xml_string Hfile Hread Hparse) as H3.
  set (s2 := mkState _ _ _) in H3.
  assert (Hpre : (Global_set_defaults;; Global_set_paths;; Global_load_settings) s0
                 = (Ret tt, s2)).
  { unfold bind at 1. rewrite H1. unfold bind at 1. rewrite H2. exact H3. }
  exists s2. split; [exact Hpre|].
  split.
  { change (glob s2) with
      (set_l2a_item_last_input_ (AddComponent "LaTeX2AI_last_input.xml" dir)
         (set_application_data_path_ path (glob s1))).
    rewrite config_set_paths. apply GetDefaultParameterList_config, Hone. }
  split; [reflexivity|]. split; [reflexivity|].
  split; [subst s2 s1' s1; cbn; by rewrite <- !app_assoc|].
  unfold Global_ctor. unfold bind at 1. rewrite H1. unfold bind at 1. rewrite H2.
  unfold bind at 1. rewrite H3. reflexivity.
Qed.

End ConstructorFacts.

(** ** The accessors *)

(** C8: while [_l2a_global] is null, each of the three accessors throws the
    exception of [CheckGlobal] instead of returning a reference, whatever
    [_l2a_plugin] holds. *)
Theorem accessors_throw_before_construction {L2APlugin : Type}
    (ps : @pointers L2APlugin) :
  _l2a_global ps = None ->
  let e := L2A_Exception "The global object is not defined!" in
  Global_accessor ps = Thrown e
  /\ GlobalMutable ps = Thrown e
  /\ GlobalPluginMutable ps = Thrown e.
Proof.
  intros Hnull e.
  unfold Global_accessor, GlobalMutable, GlobalPluginMutable, CheckGlobal.
  rewrite Hnull. done.
Qed.

(** Once the object exists the two accessors of the object return it. *)
Lemma accessors_return_after_construction {L2APlugin : Type}
    (ps : @pointers L2APlugin) (g : Global) :
  _l2a_global ps = Some g ->
  Global_accessor ps = Reference g /\ GlobalMutable ps = Reference g.
Proof.
  intros Hg. unfold Global_accessor, GlobalMutable, CheckGlobal, deref.
  rewrite Hg. done.
Qed.

(** ** Runs in the scripted environment *)

Module Runs.
Import TestHost Scenario.

Lemma encode_decode_roundtrip_witness :
  of_decimal (decimal 0) = 0%Z /\ of_decimal (decimal 1) = 1%Z
  /\ SetFromParameterList of_decimal (ToParameterList decimal sample ∅) sample
     = (true, sample).
Proof.
  split; [reflexivity|]. split; [reflexivity|].
  exact (proj1 (proj2
    (encode_decode_roundtrip decimal of_decimal eq_refl eq_refl sample sample ∅))).
Defined.

Lemma decode_one_key_missing_witness :
  missing_keys five_keys = ["gs_command"]
  /\ exists g', SetFromParameterList of_decimal five_keys fresh = (false, g')
       /\ gs_command_ g' = EmptyString
       /\ latex_engine_ g' = "xelatex"
       /\ warning_boundary_boxes_ g' = false.
Proof.
  split; [vm_compute; reflexivity|].
  destruct (decode_one_key_missing of_decimal five_keys "gs_command" fresh)
    as (g' & Hrun & _ & Hengine & _ & Hgs & Hbb & _); [vm_compute; reflexivity|].
  exists g'. split; [exact Hrun|]. split; [exact Hgs|].
  split; [rewrite Hengine; vm_compute; reflexivity|].
  rewrite Hbb. vm_compute. reflexivity.
Defined.

Lemma Global_ctor_corrupt_settings_witness :
  let s0 := start raw corrupt_world in
  exists s2 : state TestWorld,
    (Global_set_defaults;; Global_set_paths;; Global_load_settings) s0 = (Ret tt, s2)
    /\ config (glob s2) = default_config
    /\ tw_files (world s2) !! "appdata/LaTeX2AI_application_data.xml" = None
    /\ Global_ctor 3 s0 = Global_validate 3 s2.
Proof.
  intros s0.
  destruct (Global_ctor_corrupt_settings 3 s0
              (mkFilePath "appdata") corrupt_world corrupt_world corrupt_world
              "not a settings document")
    as (s2 & Hrun & Hconfig & _ & Hworld & _ & Hrest);
    [vm_compute; reflexivity ..|].
  exists s2. split; [exact Hrun|]. split; [exact Hconfig|].
  split; [rewrite Hworld; vm_compute; reflexivity | exact Hrest].
Defined.

Lemma CheckLatexCommand_spec_witness :
  let s := start sample corrupt_world in
  let directory := mkFilePath "C:/texlive/bin" in
  let nowhere := mkFilePath "C:/nowhere" in
  host_IsDirectory directory (world s) = (true, corrupt_world)
  /\ host_IsDirectory nowhere (world s) = (false, corrupt_world)
  /\ (exists b, (CheckLatexCommand directory s).1 = Ret b)
  /\ (exists b, (CheckLatexCommand (mkFilePath EmptyString) s).1 = Ret b)
  /\ CheckLatexCommand nowhere s
     = (Ret false, mkState sample corrupt_world [EvIsDirectory nowhere false]).
Proof.
  intros s directory nowhere.
  split; [vm_compute; reflexivity|]. split; [vm_compute; reflexivity|].
  split; [|split].
  - destruct (CheckLatexCommand_spec directory s true corrupt_world) as (Hdir & _);
      [vm_compute; reflexivity|].
    destruct (Hdir eq_refl) as (r & w2 & b & _ & Hrun & _).
    exists b. rewrite Hrun. reflexivity.
  - destruct (CheckLatexCommand_spec (mkFilePath EmptyString) s false corrupt_world)
      as (_ & Hempty & _); [vm_compute; reflexivity|].
    destruct (Hempty eq_refl eq_refl) as (r & w2 & b & _ & Hrun & _).
    exists b. rewrite Hrun. reflexivity.
  - destruct (CheckLatexCommand_spec nowhere s false corrupt_world) as (_ & _ & Hother);
      [vm_compute; reflexivity|].
    apply Hother; [reflexivity | discriminate].
Defined.

Lemma Global_validate_aborts_witness :
  let s := start fresh no_renderer in
  let s0 := mkState fresh no_renderer [EvClearTemporaryDirectory] in
  let s1 := (CheckGhostscriptCommand EmptyString s0).2 in
  let s2 := (GetGhostScriptCommand s1).2 in
  let s3 := (SetGhostscriptCommand 3 "gs" s2).2 in
  let t := start wrong_tex_path no_typesetter in
  let t0 := mkState wrong_tex_path no_typesetter [EvClearTemporaryDirectory] in
  let t4 := (Global_check_gs 3 t0).2 in
  let t5 := (CheckLatexCommand (mkFilePath "C:/nowhere") t4).2 in
  (CheckGhostscriptCommand EmptyString s0 = (Ret false, s1)
   /\ GetGhostScriptCommand s1 = (Ret "gs", s2)
   /\ SetGhostscriptCommand 3 "gs" s2 = (Ret false, s3)
   /\ Global_validate 3 s = (Ret tt, s3))
  /\ (Global_check_gs 3 t0 = (Ret true, t4)
      /\ CheckLatexCommand (latex_bin_path_ (glob t4)) t4 = (Ret false, t5)
      /\ (Global_validate 3 t).1 = Ret tt
      /\ latex_bin_path_ (glob (Global_validate 3 t).2) = mkFilePath EmptyString).
Proof.
  intros s s0 s1 s2 s3 t t0 t4 t5. split.
  - assert (H1 : CheckGhostscriptCommand EmptyString s0 = (Ret false, s1))
      by (vm_compute; reflexivity).
    assert (H2 : GetGhostScriptCommand s1 = (Ret "gs", s2)) by (vm_compute; reflexivity).
    assert (H3 : SetGhostscriptCommand 3 "gs" s2 = (Ret false, s3))
      by (vm_compute; reflexivity).
    split; [exact H1|]. split; [exact H2|]. split; [exact H3|].
    exact (proj1 (proj1 (Global_validate_aborts 3 s) s1 s2 s3 "gs" H1 H2 H3)).
  - assert (H4 : Global_check_gs 3 t0 = (Ret true, t4)) by (vm_compute; reflexivity).
    assert (H5 : CheckLatexCommand (latex_bin_path_ (glob t4)) t4 = (Ret false, t5))
      by (vm_compute; reflexivity).
    split; [exact H4|]. split; [exact H5|].
    destruct (proj2 (Global_validate_aborts 3 t) t4 t5 H4 H5) as (Hrun & Hempty).
    rewrite Hrun. cbn [fst snd]. split.
    + vm_compute. reflexivity.
    + apply Hempty. vm_compute. reflexivity.
Defined.

Lemma accessors_throw_before_construction_witness :
  let ps := mkPointers None (Some tt) in
  _l2a_global ps = None
  /\ GlobalPluginMutable ps = Thrown (L2A_Exception "The global object is not defined!").
Proof.
  intros ps. split; [reflexivity|].
  exact (proj2 (proj2 (accessors_throw_before_construction ps eq_refl))).
Defined.

(** Two picks that are not the renderer, then the renderer: the setter
    succeeds, and the field is assigned once, at the very end, the value
    that passed the probe. *)
Example third_pick_is_committed :
  let res := SetGhostscriptCommand 5 "gs" (start fresh third_time_lucky) in
  res.1 = Ret true
  /\ gs_command_ (glob res.2) = gs_exe
  /\ assignments (log res.2) = [EvAssign_gs_command_ gs_exe]
  /\ last (log res.2) = Some (EvAssign_gs_command_ gs_exe)
  /\ length (confirmations (log res.2)) = 3%nat.
Proof. vm_compute. repeat split; reflexivity. Qed.

(** The same user with fuel for two rounds only: the run stops after two
    confirmations and nothing has been stored. *)
Example two_rounds_are_not_enough :
  let res := SetGhostscriptCommand 2 "gs" (start fresh third_time_lucky) in
  res.1 = OutOfFuel
  /\ glob res.2 = fresh
  /\ length (confirmations (log res.2)) = 2%nat.
Proof. vm_compute. repeat split; reflexivity. Qed.

(** The whole constructor on the machine with the unreadable settings file:
    it returns, the file is gone, and the object holds the defaults except
    for the renderer, which the validation step has found and stored. *)
Example construction_after_unreadable_settings :
  let res := Global_ctor 3 (start raw corrupt_world) in
  res.1 = Ret tt
  /\ tw_files (world res.2) !! "appdata/LaTeX2AI_application_data.xml" = None
  /\ config (glob res.2)
     = (mkFilePath EmptyString, "pdflatex", default_latex_command_options, gs_exe,
        true, true).
Proof. vm_compute. repeat split; reflexivity. Qed.

(** Saving and loading again: the destructor writes what [ToString] gives
    to the settings file. *)
Example destruction_writes_settings :
  let res := Global_dtor (start sample no_renderer) in
  res.1 = Ret tt
  /\ tw_files (world res.2) !! "appdata/LaTeX2AI_application_data.xml"
     = Some (ToString sample).
Proof. vm_compute. repeat split; reflexivity. Qed.

End Runs.

(** * Further properties *)

(** ** Decoding, once more *)

Section MoreSerializationFacts.
Variable IntegerToString : Z -> string.
Variable StringToInteger : string -> Z.

Local Abbreviation encode := (ToParameterList IntegerToString).
Local Abbreviation defaults := (GetDefaultParameterList IntegerToString).
Local Abbreviation decode := (SetFromParameterList StringToInteger).

(** The six lookups in the list of defaults. *)
Lemma GetDefaultParameterList_lookup :
  let pl := defaults ∅ in
  pl !! "latex_bin_path" = Some EmptyString
  /\ pl !! "latex_engine" = Some "pdflatex"
  /\ pl !! "latex_command_options" = Some default_latex_command_options
  /\ pl !! "gs_command" = Some EmptyString
  /\ pl !! "warning_boundary_boxes" = Some (IntegerToString 1)
  /\ pl !! "warning_ai_not_saved" = Some (IntegerToString 1).
Proof.
  unfold GetDefaultParameterList, SetOption_bool, SetOption_int, SetOption.
  unfold ParameterList.t in *. cbn zeta. cbn [Z.b2z].
  repeat split; rewrite ?lookup_insert_ne by done; apply lookup_insert_eq.
Qed.

(** X1: the list of defaults has exactly the six recognized keys, and
    decoding it into any object reports a complete load and leaves the six
    defaults in it, the other fields being kept; the default [true] is
    assumed to survive the two integer conversions. *)
Theorem GetDefaultParameterList_decodes
    (Hone : StringToInteger (IntegerToString 1) = 1%Z) (g : Global) :
  dom (defaults ∅) = list_to_set recognized_keys
  /\ decode (defaults ∅) g = (true, with_defaults g).
Proof.
  split; [apply GetDefaultParameterList_dom|].
  rewrite SetFromParameterList_spec.
  destruct GetDefaultParameterList_lookup as (H1 & H2 & H3 & H4 & H5 & H6).
  unfold overlay_field, OptionExists. cbn [forallb recognized_keys].
  rewrite H1, H2, H3, H4, H5, H6, Hone. reflexivity.
Qed.

Lemma forallb_filter_nil {T} (f : T -> bool) (l : list T) :
  forallb f l = bool_decide (List.filter (fun x => negb (f x)) l = []).
Proof.
  induction l as [|x l IH]; [done|]. cbn. destruct (f x); cbn; [exact IH|done].
Qed.

(** The flag [SetFromParameterList] returns. *)
Lemma decode_flag (pl : ParameterList.t) (g : Global) :
  (decode pl g).1 = bool_decide (missing_keys pl = []).
Proof. rewrite SetFromParameterList_spec. apply forallb_filter_nil. Qed.

(** X2: for every list, [SetFromParameterList] reports a complete load
    exactly when no recognized key is missing, decodes each field whose key
    is in the list, keeps each field whose key is not, and never touches
    the three fields that are not persisted. *)
Theorem SetFromParameterList_overlay (pl : ParameterList.t) (g : Global) :
  let g' := (decode pl g).2 in
  ((decode pl g).1 = true <-> missing_keys pl = [])
  /\ session g' = session g
  /\ latex_bin_path_ g' = overlay_field pl "latex_bin_path" mkFilePath (latex_bin_path_ g)
  /\ latex_engine_ g' = overlay_field pl "latex_engine" id (latex_engine_ g)
  /\ latex_command_options_ g'
     = overlay_field pl "latex_command_options" id (latex_command_options_ g)
  /\ gs_command_ g' = overlay_field pl "gs_command" id (gs_command_ g)
  /\ warning_boundary_boxes_ g'
     = overlay_field pl "warning_boundary_boxes"
         (fun v => bool_of_int (StringToInteger v)) (warning_boundary_boxes_ g)
  /\ warning_ai_not_saved_ g'
     = overlay_field pl "warning_ai_not_saved"
         (fun v => bool_of_int (StringToInteger v)) (warning_ai_not_saved_ g).
Proof.
  cbn zeta. split.
  - rewrite decode_flag. apply bool_decide_eq_true.
  - rewrite SetFromParameterList_spec. cbn [snd]. by repeat split.
Qed.

(** X3: decoding the same list a second time changes nothing. *)
Theorem SetFromParameterList_idempotent (pl : ParameterList.t) (g : Global) :
  decode pl (decode pl g).2 = decode pl g.
Proof.
  rewrite !SetFromParameterList_spec. cbn [fst snd]. f_equal.
  unfold overlay_field.
  cbn [is_testing_ application_data_path_ l2a_item_last_input_ latex_bin_path_
         latex_engine_ latex_command_options_ gs_command_ warning_boundary_boxes_
         warning_ai_not_saved_].
  destruct (pl !! "latex_bin_path"), (pl !! "latex_engine"),
    (pl !! "latex_command_options"), (pl !! "gs_command"),
    (pl !! "warning_boundary_boxes"), (pl !! "warning_ai_not_saved"); reflexivity.
Qed.

(** X4: only the six recognized keys matter: two lists that agree on them
    decode to the same object with the same flag, whatever else they
    hold. *)
Theorem SetFromParameterList_ignores_other_keys (pl1 pl2 : ParameterList.t) (g : Global)
    (Hagree : agree_on_recognized_keys pl1 pl2) :
  decode pl1 g = decode pl2 g.
Proof.
  rewrite !SetFromParameterList_spec. unfold overlay_field, OptionExists.
  cbn [forallb recognized_keys].
  rewrite !(Hagree "latex_bin_path"), !(Hagree "latex_engine"),
    !(Hagree "latex_command_options"), !(Hagree "gs_command"),
    !(Hagree "warning_boundary_boxes"), !(Hagree "warning_ai_not_saved")
    by (unfold recognized_keys; set_solver).
  reflexivity.
Qed.

(** X5: what [ToParameterList] writes into a fresh list is determined by
    the six persisted fields, and determines them: two objects have the
    same encoding exactly when they agree on these fields.  The two
    integer conversions are assumed inverse to each other on [0] and
    [1]. *)
Theorem ToParameterList_injective_on_config
    (Hzero : StringToInteger (IntegerToString 0) = 0%Z)
    (Hone : StringToInteger (IntegerToString 1) = 1%Z)
    (g1 g2 : Global) :
  encode g1 ∅ = encode g2 ∅ <-> config g1 = config g2.
Proof.
  assert (Hbool : forall b : bool,
             bool_of_int (StringToInteger (IntegerToString (Z.b2z b))) = b).
  { intros [|]; cbn [Z.b2z]; [rewrite Hone | rewrite Hzero]; reflexivity. }
  split.
  - intros Heq.
    destruct (ToParameterList_lookup IntegerToString g1 ∅) as (A1 & A2 & A3 & A4 & A5 & A6).
    destruct (ToParameterList_lookup IntegerToString g2 ∅) as (B1 & B2 & B3 & B4 & B5 & B6).
    cbn zeta in *. rewrite Heq in A1, A2, A3, A4, A5, A6.
    rewrite A1 in B1. rewrite A2 in B2. rewrite A3 in B3. rewrite A4 in B4.
    rewrite A5 in B5. rewrite A6 in B6.
    injection B1 as B1. injection B2 as B2. injection B3 as B3. injection B4 as B4.
    injection B5 as B5. injection B6 as B6.
    apply (f_equal (fun v => bool_of_int (StringToInteger v))) in B5, B6.
    rewrite !Hbool in B5, B6.
    unfold config. destruct (latex_bin_path_ g1), (latex_bin_path_ g2).
    cbn in B1. congruence.
  - unfold config. intros [= H1 H2 H3 H4 H5 H6].
    unfold ToParameterList, SetOption_bool, SetOption_int, SetOption_path, SetOption.
    cbn zeta. by rewrite H1, H2, H3, H4, H5, H6.
Qed.

End MoreSerializationFacts.

(** ** The shape of a repair *)

Section TraceFacts.
Context {A : Type}.
Variable check_events : A -> bool -> list event -> Prop.
Variable alert : string.
Variable dialog : FilePath -> AIErr * FilePath -> event.
Variable candidate_of : FilePath -> A.

Local Abbreviation trace := (repair_trace check_events alert dialog candidate_of).

(** A property of all entries of the validations, of the alert and of the
    picker is a property of all entries of the loop. *)
Lemma repair_trace_Forall (P : event -> Prop) c p o evs :
  (forall c b e, check_events c b e -> Forall P e) ->
  (forall r, P (EvOKCancelAlert alert true r)) ->
  (forall p r, P (dialog p r)) ->
  trace c p o evs -> Forall P evs.
Proof.
  intros Hcheck Halert Hdialog Htrace.
  induction Htrace; rewrite ?Forall_app; repeat split; eauto.
Qed.

(** Where the candidate the loop is left with comes from. *)
Lemma repair_trace_result c p c' evs :
  (forall c b e, check_events c b e -> picks e = []) ->
  (forall p p', picked (dialog p (kNoErr, p')) = Some p') ->
  trace c p (Ret (Some c')) evs ->
  c' = match last (picks evs) with
       | Some p' => candidate_of p'
       | None => c
       end.
Proof.
  intros Hcheck Hdialog Htrace.
  remember (Ret (Some c')) as o eqn:Ho.
  induction Htrace; try discriminate Ho.
  - injection Ho as ->. by rewrite (Hcheck _ _ _ H).
  - specialize (IHHtrace Ho).
    assert (Hmid : picks [EvOKCancelAlert alert true true; dialog p (kNoErr, p')] = [p'])
      by (unfold picks; cbn; by rewrite Hdialog).
    assert (Hpicks : picks (evs ++ [EvOKCancelAlert alert true true;
                                    dialog p (kNoErr, p')] ++ rest)
                     = p' :: picks rest).
    { unfold picks in *. by rewrite !omap_app, Hmid, (Hcheck _ _ _ H). }
    rewrite Hpicks, last_cons, IHHtrace. by destruct (last (picks rest)).
Qed.

(** An error of the picker ends the loop with the exception, and nothing
    else does. *)
Lemma repair_trace_raise c p o evs :
  (forall c b e, check_events c b e -> Forall (fun ev => is_dialog_error ev = false) e) ->
  (forall p r, is_dialog_error (dialog p r)
               = match r.1 with kOtherErr _ => true | _ => false end) ->
  trace c p o evs ->
  match o with
  | Raise e =>
      e = dialog_exception
      /\ exists pre ev, evs = pre ++ [ev] /\ is_dialog_error ev = true
  | _ => Forall (fun ev => is_dialog_error ev = false) evs
  end.
Proof.
  intros Hcheck Hdialog Htrace.
  assert (Hquiet : forall p r, r.1 = kNoErr \/ r.1 = kCanceledErr ->
                     Forall (fun ev => is_dialog_error ev = false)
                       [EvOKCancelAlert alert true true; dialog p r]).
  { intros q r Hr. constructor; [done|]. constructor; [|constructor].
    rewrite Hdialog. by destruct Hr as [-> | ->]. }
  induction Htrace.
  - eauto.
  - rewrite Forall_app. split; [eauto|]. by repeat constructor.
  - rewrite Forall_app. split; [eauto|]. apply Hquiet. by right.
  - split; [done|]. eexists (evs ++ [_]), _. rewrite <- app_assoc. split; [done|].
    by rewrite Hdialog.
  - done.
  - destruct o as [a|e|].
    + rewrite !Forall_app. split; [eauto|]. split; [|done]. apply Hquiet. by left.
    + destruct IHHtrace as (-> & pre & ev & -> & Hev). split; [done|].
      eexists (evs ++ [_; _] ++ pre), ev. by rewrite <- !app_assoc.
    + rewrite !Forall_app. split; [eauto|]. split; [|done]. apply Hquiet. by left.
Qed.

End TraceFacts.

Section LoopTraces.
Context {W : Type} `{!Host W}.

Lemma CheckLatexCommand_check_events (p : FilePath) (s : state W) :
  exists (b : bool) (w : W) (evs : list event),
    CheckLatexCommand p s = (Ret b, mkState (glob s) w (log s ++ evs))
    /\ latex_check_events p b evs.
Proof.
  rewrite CheckLatexCommand_run. cbn zeta.
  destruct (host_IsDirectory p (world s)) as [d w1]. cbn [fst snd].
  destruct (command_latex d p) as [c|] eqn:Hc.
  - destruct (host_ExecuteCommandLine (c +:+ " -version") true w1) as [r w2].
    cbn [fst snd]. eexists _, _, [_; _]. split; [reflexivity|].
    exists d. rewrite Hc. by exists r.
  - eexists _, _, [_]. split; [reflexivity|]. exists d. by rewrite Hc.
Qed.

Lemma SetGhostscriptCommand_while_trace (fuel : nat) :
  forall (c : string) (p : FilePath) (s : state W),
    exists o s' evs,
      SetGhostscriptCommand_while fuel c p s = (o, s')
      /\ glob s' = glob s /\ log s' = log s ++ evs /\ gs_trace c p o evs.
Proof.
  unfold gs_trace. induction fuel as [|fuel IH]; intros c p s.
  - eexists _, _, []. split; [reflexivity|]. rewrite app_nil_r.
    repeat split. constructor.
  - cbn [SetGhostscriptCommand_while]. unfold bind at 1.
    rewrite CheckGhostscriptCommand_run. cbn zeta.
    destruct (host_ExecuteCommandLine _ true (world s)) as [r w] eqn:Hexec.
    cbn [fst snd].
    set (ev1 := EvExecuteCommandLine _ true r).
    assert (Hcheck : gs_check_events c (probe " Ghostscript " r) [ev1]) by (by exists r).
    destruct (probe " Ghostscript " r).
    { eexists _, _, [ev1]. split; [reflexivity|]. repeat split. by constructor. }
    unfold bind at 1, OKCancelAlert, call at 1; cbn [world glob log].
    destruct (host_OKCancelAlert gs_form_string true w) as [[|] w2] eqn:Hok; cbn [negb].
    2:{ eexists _, _, ([ev1] ++ [_]). split; [reflexivity|]. cbn [glob log].
        split; [done|]. split; [by rewrite <- app_assoc|]. by apply trace_cancel_alert. }
    unfold bind at 1, GetFileDialog, call at 1; cbn [world glob log].
    destruct (host_GetFileDialog dialog_message gs_dialog_filters p w2)
      as [[err p'] w3] eqn:Hpick.
    set (ev2 := EvOKCancelAlert gs_form_string true true).
    set (ev3 := EvGetFileDialog _ _ _ _).
    assert (Hpre : forall l : list event,
               ((l ++ [ev1]) ++ [ev2]) ++ [ev3] = l ++ [ev1] ++ [ev2; ev3])
      by (intros l; by rewrite <- !app_assoc).
    destruct (decide (err = kCanceledErr)) as [->|Hne].
    { eexists _, _, _. split; [reflexivity|]. cbn [glob log].
      split; [done|]. split; [apply Hpre|]. by apply trace_cancel_dialog. }
    destruct err as [| |code]; [|done|].
    + unfold l2a_check_ai_error. unfold bind at 1. unfold pure at 1.
      match goal with
      | |- context [SetGhostscriptCommand_while fuel ?c1 ?p1 ?s1] =>
          destruct (IH c1 p1 s1) as (o & s2 & evs & -> & Hg & Hl & Htrace)
      end.
      exists o, s2, ([ev1] ++ [ev2; ev3] ++ evs). split; [reflexivity|].
      split; [by rewrite Hg|].
      split; [rewrite Hl; cbn [log]; by rewrite Hpre, <- !app_assoc|].
      by apply trace_round.
    + eexists _, _, _. split; [reflexivity|]. cbn [glob log].
      split; [done|]. split; [apply Hpre|]. by apply trace_dialog_error.
Qed.

Lemma SetLatexCommand_while_trace (fuel : nat) :
  forall (p : FilePath) (s : state W),
    exists o s' evs,
      SetLatexCommand_while fuel p s = (o, s')
      /\ glob s' = glob s /\ log s' = log s ++ evs /\ latex_trace p o evs.
Proof.
  unfold latex_trace. induction fuel as [|fuel IH]; intros p s.
  - eexists _, _, []. split; [reflexivity|]. rewrite app_nil_r.
    repeat split. constructor.
  - cbn [SetLatexCommand_while]. unfold bind at 1.
    destruct (CheckLatexCommand_check_events p s) as (b & w & evs & -> & Hcheck).
    destruct b.
    { eexists _, _, evs. split; [reflexivity|]. repeat split. by constructor. }
    unfold bind at 1, OKCancelAlert, call at 1; cbn [world glob log].
    destruct (host_OKCancelAlert latex_form_string true w) as [[|] w2] eqn:Hok;
      cbn [negb].
    2:{ eexists _, _, (evs ++ [_]). split; [reflexivity|]. cbn [glob log].
        split; [done|]. split; [by rewrite <- app_assoc|]. by apply trace_cancel_alert. }
    unfold bind at 1, GetDirectoryDialog, call at 1; cbn [world glob log].
    destruct (host_GetDirectoryDialog dialog_message p w2) as [[err p'] w3] eqn:Hpick.
    set (ev2 := EvOKCancelAlert latex_form_string true true).
    set (ev3 := EvGetDirectoryDialog _ _ _).
    assert (Hpre : forall l : list event,
               ((l ++ evs) ++ [ev2]) ++ [ev3] = l ++ evs ++ [ev2; ev3])
      by (intros l; by rewrite <- !app_assoc).
    destruct (decide (err = kCanceledErr)) as [->|Hne].
    { eexists _, _, _. split; [reflexivity|]. cbn [glob log].
      split; [done|]. split; [apply Hpre|]. by apply trace_cancel_dialog. }
    destruct err as [| |code]; [|done|].
    + unfold l2a_check_ai_error. unfold bind at 1. unfold pure at 1.
      match goal with
      | |- context [SetLatexCommand_while fuel ?p1 ?s1] =>
          destruct (IH p1 s1) as (o & s2 & rest & -> & Hg & Hl & Htrace)
      end.
      exists o, s2, (evs ++ [ev2; ev3] ++ rest). split; [reflexivity|].
      split; [by rewrite Hg|].
      split; [rewrite Hl; cbn [log]; by rewrite Hpre, <- !app_assoc|].
      by apply (trace_round latex_check_events latex_form_string
                  (EvGetDirectoryDialog dialog_message) id p p p').
    + eexists _, _, _. split; [reflexivity|]. cbn [glob log].
      split; [done|]. split; [apply Hpre|]. by apply trace_dialog_error.
Qed.

End LoopTraces.

(** ** What a method logs and what it keeps *)

Section Combinators.
Context {W : Type}.
Variable P : event -> Prop.
Variable R : Global -> Global -> Prop.
Hypothesis R_refl : forall g, R g g.
Hypothesis R_trans : forall g1 g2 g3, R g1 g2 -> R g2 g3 -> R g1 g3.

Lemma logs_only_pure {A} (a : A) : logs_only (W := W) P (pure a).
Proof. intros s. exists []. by rewrite app_nil_r. Qed.

Lemma logs_only_raise {A} (e : exn) : logs_only (W := W) (A := A) P (raise e).
Proof. intros s. exists []. by rewrite app_nil_r. Qed.

Lemma logs_only_out_of_fuel {A} : logs_only (W := W) (A := A) P out_of_fuel.
Proof. intros s. exists []. by rewrite app_nil_r. Qed.

Lemma logs_only_this : logs_only (W := W) P this.
Proof. intros s. exists []. by rewrite app_nil_r. Qed.

Lemma logs_only_modify (f : Global -> Global) : logs_only (W := W) P (modify f).
Proof. intros s. exists []. by rewrite app_nil_r. Qed.

Lemma logs_only_record (ev : event) : P ev -> logs_only (W := W) P (record ev).
Proof. intros Hev s. exists [ev]. split; [done|]. by repeat constructor. Qed.

Lemma logs_only_call {T} (op : W -> T * W) (ev : T -> event) :
  (forall r, P (ev r)) -> logs_only P (call op ev).
Proof.
  intros Hev s. unfold call. destruct (op (world s)) as [r w].
  exists [ev r]. split; [done|]. by repeat constructor.
Qed.

Lemma logs_only_bind {A B} (m : M W A) (f : A -> M W B) :
  logs_only P m -> (forall a, logs_only P (f a)) -> logs_only P (bind m f).
Proof.
  intros Hm Hf s. unfold bind. destruct (Hm s) as (evs & Hl & Hevs).
  destruct (m s) as [[a|e|] s1]; cbn [snd] in *; [|by exists evs..].
  destruct (Hf a s1) as (evs' & Hl' & Hevs').
  exists (evs ++ evs'). split; [by rewrite Hl', Hl, app_assoc|].
  by apply Forall_app.
Qed.

Lemma logs_only_try_catch {A} (only_l2a : bool) (m h : M W A) :
  logs_only P m -> logs_only P h -> logs_only P (try_catch only_l2a m h).
Proof.
  intros Hm Hh s. unfold try_catch. destruct (Hm s) as (evs & Hl & Hevs).
  assert (Hhandler : exists evs', log (h (m s).2).2 = log s ++ evs' /\ Forall P evs').
  { destruct (Hh (m s).2) as (evs' & Hl' & Hevs').
    exists (evs ++ evs'). split; [by rewrite Hl', Hl, app_assoc|]. by apply Forall_app. }
  destruct (m s) as [[a|[what|what]|] s1]; cbn [snd] in *; [by exists evs|done| |by exists evs].
  destruct only_l2a; [by exists evs|done].
Qed.

Lemma keeps_pure {A} (a : A) : keeps (W := W) R (pure a).
Proof using R_refl. intros s. apply R_refl. Qed.

Lemma keeps_raise {A} (e : exn) : keeps (W := W) (A := A) R (raise e).
Proof using R_refl. intros s. apply R_refl. Qed.

Lemma keeps_out_of_fuel {A} : keeps (W := W) (A := A) R out_of_fuel.
Proof using R_refl. intros s. apply R_refl. Qed.

Lemma keeps_this : keeps (W := W) R this.
Proof using R_refl. intros s. apply R_refl. Qed.

Lemma keeps_record (ev : event) : keeps (W := W) R (record ev).
Proof using R_refl. intros s. apply R_refl. Qed.

Lemma keeps_modify (f : Global -> Global) :
  (forall g, R g (f g)) -> keeps (W := W) R (modify f).
Proof. intros Hf s. apply Hf. Qed.

Lemma keeps_call {T} (op : W -> T * W) (ev : T -> event) : keeps R (call op ev).
Proof using R_refl. intros s. unfold call. destruct (op (world s)). apply R_refl. Qed.

Lemma keeps_bind {A B} (m : M W A) (f : A -> M W B) :
  keeps R m -> (forall a, keeps R (f a)) -> keeps R (bind m f).
Proof using R_trans.
  intros Hm Hf s. unfold bind. specialize (Hm s).
  destruct (m s) as [[a|e|] s1]; cbn [snd] in *; [|done..].
  eapply R_trans; [exact Hm | apply Hf].
Qed.

Lemma keeps_try_catch {A} (only_l2a : bool) (m h : M W A) :
  keeps R m -> keeps R h -> keeps R (try_catch only_l2a m h).
Proof using R_trans.
  intros Hm Hh s. unfold try_catch. specialize (Hm s).
  assert (Hhandler : R (glob s) (glob (h (m s).2).2))
    by (eapply R_trans; [exact Hm | apply Hh]).
  destruct (m s) as [[a|[what|what]|] s1]; cbn [snd] in *; [done|done| |done].
  by destruct only_l2a.
Qed.

End Combinators.

Ltac logs :=
  repeat first
    [ apply logs_only_pure | apply logs_only_raise | apply logs_only_out_of_fuel
    | apply logs_only_this | apply logs_only_modify
    | apply logs_only_bind; [|intros ?]
    | apply logs_only_try_catch
    | apply logs_only_call; intros ?; try (cbn; reflexivity)
    | apply logs_only_record; try (cbn; reflexivity)
    | match goal with |- logs_only _ (if ?b then _ else _) => destruct b end
    | match goal with |- logs_only _ (match ?x with _ => _ end) => destruct x end ].

Ltac keeping Hrefl Htrans :=
  repeat first
    [ apply (keeps_pure _ Hrefl) | apply (keeps_raise _ Hrefl)
    | apply (keeps_out_of_fuel _ Hrefl) | apply (keeps_this _ Hrefl)
    | apply (keeps_record _ Hrefl) | apply (keeps_call _ Hrefl)
    | apply (keeps_bind _ Htrans); [|intros ?]
    | apply (keeps_try_catch _ Htrans)
    | match goal with |- keeps _ (if ?b then _ else _) => destruct b end
    | match goal with |- keeps _ (match ?x with _ => _ end) => destruct x end ].

(** ** The validation part of the constructor, as a whole *)

Section ValidationAsAWhole.
Context {W : Type} `{!Host W}.

Lemma CheckGhostscriptCommand_logs (c : string) :
  logs_only (fun ev => is_validation_entry ev = true) (CheckGhostscriptCommand c).
Proof.
  unfold CheckGhostscriptCommand, ExecuteCommandLine. cbn zeta. logs.
Qed.

Lemma CheckLatexCommand_logs (p : FilePath) :
  logs_only (fun ev => is_validation_entry ev = true) (CheckLatexCommand p).
Proof.
  unfold CheckLatexCommand, IsDirectory, ExecuteCommandLine. logs.
Qed.

Lemma SetGhostscriptCommand_logs (fuel : nat) (c : string) :
  logs_only (fun ev => is_validation_entry ev = true) (SetGhostscriptCommand fuel c).
Proof.
  unfold SetGhostscriptCommand. cbn zeta. apply logs_only_bind.
  - generalize (mkFilePath c). revert c.
    induction fuel as [|fuel IH]; intros c p; cbn [SetGhostscriptCommand_while];
      [apply logs_only_out_of_fuel|].
    apply logs_only_bind; [apply CheckGhostscriptCommand_logs|]. intros valid.
    unfold OKCancelAlert, GetFileDialog, l2a_check_ai_error, l2a_error.
    destruct valid; logs. apply IH.
  - intros r. unfold assign_gs_command_. logs.
Qed.

Lemma SetLatexCommand_logs (fuel : nat) (p : FilePath) :
  logs_only (fun ev => is_validation_entry ev = true) (SetLatexCommand fuel p).
Proof.
  unfold SetLatexCommand. cbn zeta. apply logs_only_bind.
  - generalize (if WIN_ENV then p else mkFilePath "/Library/TeX/texbin"). clear p.
    induction fuel as [|fuel IH]; intros p; cbn [SetLatexCommand_while];
      [apply logs_only_out_of_fuel|].
    apply logs_only_bind; [apply CheckLatexCommand_logs|]. intros valid.
    unfold OKCancelAlert, GetDirectoryDialog, l2a_check_ai_error, l2a_error.
    destruct valid; logs. apply IH.
  - intros r. unfold assign_latex_bin_path_. logs.
Qed.

Lemma Global_validate_logs (fuel : nat) :
  logs_only (fun ev => is_validation_entry ev = true) (Global_validate fuel).
Proof.
  unfold Global_validate, Global_check_gs, Global_check_latex,
    ClearTemporaryDirectory, GetGhostScriptCommand, call_, assign_latex_bin_path_.
  apply logs_only_bind; [logs|]. intros _.
  apply logs_only_bind.
  - apply logs_only_bind; [logs|]. intros g.
    apply logs_only_bind; [apply CheckGhostscriptCommand_logs|]. intros valid.
    destruct valid; cbn [negb]; [logs|].
    apply logs_only_bind; [logs|]. intros c. apply SetGhostscriptCommand_logs.
  - intros go_on. destruct go_on; [|logs].
    apply logs_only_bind; [logs|]. intros g.
    apply logs_only_bind; [apply CheckLatexCommand_logs|]. intros valid.
    destruct valid; cbn [negb]; [logs|].
    apply logs_only_bind; [logs|]. intros _.
    apply logs_only_bind; [logs|]. intros g'.
    apply logs_only_bind; [apply SetLatexCommand_logs|]. intros b. logs.
Qed.

(** X6: the part of the constructor that validates the two tools only
    cleans the temporary directory, probes, asks the user and assigns the
    two fields: whatever the machine and the user do and however it ends,
    it reads, writes and removes no file and shows no warning. *)
Theorem Global_validate_entries (fuel : nat) :
  logs_only (fun ev => is_validation_entry ev = true) (Global_validate fuel).
Proof. apply Global_validate_logs. Qed.

End ValidationAsAWhole.

Section ValidationKeeps.
Context {W : Type} `{!Host W}.

Lemma same_except_tools_refl (g : Global) : same_except_tools g g.
Proof. by repeat split. Qed.

Lemma same_except_tools_trans (g1 g2 g3 : Global) :
  same_except_tools g1 g2 -> same_except_tools g2 g3 -> same_except_tools g1 g3.
Proof.
  unfold same_except_tools. intros (A1 & A2 & A3 & A4 & A5 & A6 & A7)
    (B1 & B2 & B3 & B4 & B5 & B6 & B7).
  repeat split; congruence.
Qed.

(** X7: the part of the constructor that validates the two tools changes no
    field other than [gs_command_] and [latex_bin_path_], however it
    ends. *)
Theorem Global_validate_frame (fuel : nat) :
  keeps same_except_tools (Global_validate fuel).
Proof.
  pose proof same_except_tools_refl as Hrefl.
  pose proof same_except_tools_trans as Htrans.
  assert (Hgs : forall c, keeps same_except_tools (CheckGhostscriptCommand c)).
  { intros c. unfold CheckGhostscriptCommand, ExecuteCommandLine. cbn zeta.
    keeping Hrefl Htrans. }
  assert (Hlatex : forall p, keeps same_except_tools (CheckLatexCommand p)).
  { intros p. unfold CheckLatexCommand, IsDirectory, ExecuteCommandLine.
    keeping Hrefl Htrans. }
  assert (Hassign_gs : forall c, keeps (W := W) same_except_tools (assign_gs_command_ c)).
  { intros c. unfold assign_gs_command_. apply (keeps_bind _ Htrans).
    - apply keeps_modify. intros g. by repeat split.
    - intros _. apply (keeps_record _ Hrefl). }
  assert (Hassign_latex : forall p,
             keeps (W := W) same_except_tools (assign_latex_bin_path_ p)).
  { intros p. unfold assign_latex_bin_path_. apply (keeps_bind _ Htrans).
    - apply keeps_modify. intros g. by repeat split.
    - intros _. apply (keeps_record _ Hrefl). }
  assert (Hset_gs : forall c, keeps same_except_tools (SetGhostscriptCommand fuel c)).
  { intros c. unfold SetGhostscriptCommand. cbn zeta. apply (keeps_bind _ Htrans).
    - generalize (mkFilePath c). revert c. clear Hassign_gs Hassign_latex.
      induction fuel as [|n IH]; intros c p; cbn [SetGhostscriptCommand_while];
        [apply (keeps_out_of_fuel _ Hrefl)|].
      apply (keeps_bind _ Htrans); [apply Hgs|]. intros valid.
      unfold OKCancelAlert, GetFileDialog, l2a_check_ai_error, l2a_error.
      destruct valid; keeping Hrefl Htrans. apply IH.
    - intros [c'|]; [|apply (keeps_pure _ Hrefl)].
      apply (keeps_bind _ Htrans); [apply Hassign_gs|]. intros _.
      apply (keeps_pure _ Hrefl). }
  assert (Hset_latex : forall p, keeps same_except_tools (SetLatexCommand fuel p)).
  { intros p. unfold SetLatexCommand. cbn zeta. apply (keeps_bind _ Htrans).
    - generalize (if WIN_ENV then p else mkFilePath "/Library/TeX/texbin"). clear p.
      clear Hassign_gs Hassign_latex Hset_gs.
      induction fuel as [|n IH]; intros p; cbn [SetLatexCommand_while];
        [apply (keeps_out_of_fuel _ Hrefl)|].
      apply (keeps_bind _ Htrans); [apply Hlatex|]. intros valid.
      unfold OKCancelAlert, GetDirectoryDialog, l2a_check_ai_error, l2a_error.
      destruct valid; keeping Hrefl Htrans. apply IH.
    - intros [p'|]; [|apply (keeps_pure _ Hrefl)].
      apply (keeps_bind _ Htrans); [apply Hassign_latex|]. intros _.
      apply (keeps_pure _ Hrefl). }
  unfold Global_validate, Global_check_gs, Global_check_latex,
    ClearTemporaryDirectory, GetGhostScriptCommand, call_.
  apply (keeps_bind _ Htrans); [keeping Hrefl Htrans|]. intros _.
  apply (keeps_bind _ Htrans).
  - apply (keeps_bind _ Htrans); [keeping Hrefl Htrans|]. intros g.
    apply (keeps_bind _ Htrans); [apply Hgs|]. intros valid.
    destruct valid; cbn [negb]; [keeping Hrefl Htrans|].
    apply (keeps_bind _ Htrans); [keeping Hrefl Htrans|]. intros c. apply Hset_gs.
  - intros go_on. destruct go_on; [|keeping Hrefl Htrans].
    apply (keeps_bind _ Htrans); [keeping Hrefl Htrans|]. intros g.
    apply (keeps_bind _ Htrans); [apply Hlatex|]. intros valid.
    destruct valid; cbn [negb]; [keeping Hrefl Htrans|].
    apply (keeps_bind _ Htrans); [apply Hassign_latex|]. intros _.
    apply (keeps_bind _ Htrans); [keeping Hrefl Htrans|]. intros g'.
    apply (keeps_bind _ Htrans); [apply Hset_latex|]. intros b.
    keeping Hrefl Htrans.
Qed.

(** The setters in terms of their loops. *)
Lemma SetGhostscriptCommand_by_loop (fuel : nat) (c : string) (s : state W) :
  exists o s1 evs,
    glob s1 = glob s /\ log s1 = log s ++ evs /\ gs_trace c (mkFilePath c) o evs
    /\ SetGhostscriptCommand fuel c s =
       match o with
       | Ret (Some c') =>
           (Ret true, mkState (set_gs_command_ c' (glob s)) (world s1)
                        (log s ++ evs ++ [EvAssign_gs_command_ c']))
       | Ret None => (Ret false, s1)
       | Raise e => (Raise e, s1)
       | OutOfFuel => (OutOfFuel, s1)
       end.
Proof.
  destruct (SetGhostscriptCommand_while_trace fuel c (mkFilePath c) s)
    as (o & s1 & evs & Hrun & Hg & Hl & Htrace).
  exists o, s1, evs. repeat split; try done.
  unfold SetGhostscriptCommand. cbn zeta. unfold bind at 1. rewrite Hrun.
  destruct o as [[c'|]|e|]; try reflexivity.
  unfold assign_gs_command_, modify, record, bind, pure. cbn.
  by rewrite Hg, Hl, <- app_assoc.
Qed.

Lemma SetLatexCommand_by_loop (fuel : nat) (latex_path : FilePath) (s : state W) :
  exists o s1 evs,
    glob s1 = glob s /\ log s1 = log s ++ evs
    /\ latex_trace (initial_latex_path latex_path) o evs
    /\ SetLatexCommand fuel latex_path s =
       match o with
       | Ret (Some p') =>
           (Ret true, mkState (set_latex_bin_path_ p' (glob s)) (world s1)
                        (log s ++ evs ++ [EvAssign_latex_bin_path_ p']))
       | Ret None => (Ret false, s1)
       | Raise e => (Raise e, s1)
       | OutOfFuel => (OutOfFuel, s1)
       end.
Proof.
  destruct (SetLatexCommand_while_trace fuel (initial_latex_path latex_path) s)
    as (o & s1 & evs & Hrun & Hg & Hl & Htrace).
  exists o, s1, evs. repeat split; try done.
  unfold SetLatexCommand. cbn zeta. unfold bind at 1.
  change (if WIN_ENV then latex_path else mkFilePath "/Library/TeX/texbin")
    with (initial_latex_path latex_path).
  rewrite Hrun. destruct o as [[c'|]|e|]; try reflexivity.
  unfold assign_latex_bin_path_, modify, record, bind, pure. cbn.
  by rewrite Hg, Hl, <- app_assoc.
Qed.

Lemma gs_check_events_picks c b evs : gs_check_events c b evs -> picks evs = [].
Proof. by intros (r & -> & _). Qed.

Lemma latex_check_events_picks p b evs : latex_check_events p b evs -> picks evs = [].
Proof.
  intros (d & H). destruct (command_latex d p).
  - by destruct H as (r & _ & ->).
  - by destruct H as (_ & ->).
Qed.

Lemma gs_check_events_no_error c b evs :
  gs_check_events c b evs -> Forall (fun ev => is_dialog_error ev = false) evs.
Proof. intros (r & -> & _). by repeat constructor. Qed.

Lemma latex_check_events_no_error p b evs :
  latex_check_events p b evs -> Forall (fun ev => is_dialog_error ev = false) evs.
Proof.
  intros (d & H). destruct (command_latex d p).
  - destruct H as (r & _ & ->). by repeat constructor.
  - destruct H as (_ & ->). by repeat constructor.
Qed.

Lemma picks_snoc_assignment (evs : list event) (ev : event) :
  is_assignment ev = true -> picks (evs ++ [ev]) = picks evs.
Proof.
  intros Hev. unfold picks. rewrite omap_app.
  destruct ev; try discriminate Hev; cbn; by rewrite app_nil_r.
Qed.

(** X8: where a stored value comes from.  When [SetGhostscriptCommand]
    succeeds, the command it has stored is the full path of the last file
    the user picked, or its argument if no file was picked; when
    [SetLatexCommand] succeeds, the path it has stored is the last
    directory the user picked or, if none was picked, its argument on
    Windows and [/Library/TeX/texbin] on any other platform. *)
Theorem repair_setters_store_last_pick (fuel : nat) (s : state W) :
  (forall (gs_command : string) (s' : state W),
      SetGhostscriptCommand fuel gs_command s = (Ret true, s') ->
      exists evs, log s' = log s ++ evs
        /\ gs_command_ (glob s') = match last (picks evs) with
                                   | Some p => GetFullPath p
                                   | None => gs_command
                                   end)
  /\ (forall (latex_path : FilePath) (s' : state W),
        SetLatexCommand fuel latex_path s = (Ret true, s') ->
        exists evs, log s' = log s ++ evs
          /\ latex_bin_path_ (glob s') = match last (picks evs) with
                                         | Some p => p
                                         | None => initial_latex_path latex_path
                                         end).
Proof.
  split.
  - intros c s' Hrun.
    destruct (SetGhostscriptCommand_by_loop fuel c s)
      as (o & s1 & evs & Hg & Hl & Htrace & Hset).
    rewrite Hrun in Hset. destruct o as [[c'|]|e|]; try discriminate Hset.
    injection Hset as ->. eexists. split; [reflexivity|].
    rewrite picks_snoc_assignment by done. cbn [glob gs_command_ set_gs_command_].
    apply (repair_trace_result gs_check_events gs_form_string
             (EvGetFileDialog dialog_message gs_dialog_filters) GetFullPath
             _ _ _ _ gs_check_events_picks (fun _ _ => eq_refl) Htrace).
  - intros p s' Hrun.
    destruct (SetLatexCommand_by_loop fuel p s)
      as (o & s1 & evs & Hg & Hl & Htrace & Hset).
    rewrite Hrun in Hset. destruct o as [[c'|]|e|]; try discriminate Hset.
    injection Hset as ->. eexists. split; [reflexivity|].
    rewrite picks_snoc_assignment by done.
    cbn [glob latex_bin_path_ set_latex_bin_path_].
    apply (repair_trace_result latex_check_events latex_form_string
             (EvGetDirectoryDialog dialog_message) id
             _ _ _ _ latex_check_events_picks (fun _ _ => eq_refl) Htrace).
Qed.

(** X9: a repair-setter throws only right after its picker has returned an
    error other than a cancellation, the exception then being the one of
    [l2a_check_ai_error]; and whenever the picker returns such an error the
    setter throws, so that such an error is never passed over. *)
Theorem repair_setters_throw_on_dialog_error (fuel : nat) (s : state W) :
  (forall gs_command : string,
      exists evs,
        log (SetGhostscriptCommand fuel gs_command s).2 = log s ++ evs
        /\ match (SetGhostscriptCommand fuel gs_command s).1 with
           | Raise e =>
               e = dialog_exception
               /\ exists pre ev, evs = pre ++ [ev] /\ is_dialog_error ev = true
           | _ => Forall (fun ev => is_dialog_error ev = false) evs
           end)
  /\ (forall latex_path : FilePath,
        exists evs,
          log (SetLatexCommand fuel latex_path s).2 = log s ++ evs
          /\ match (SetLatexCommand fuel latex_path s).1 with
             | Raise e =>
                 e = dialog_exception
                 /\ exists pre ev, evs = pre ++ [ev] /\ is_dialog_error ev = true
             | _ => Forall (fun ev => is_dialog_error ev = false) evs
             end).
Proof.
  split.
  - intros c.
    destruct (SetGhostscriptCommand_by_loop fuel c s)
      as (o & s1 & evs & Hg & Hl & Htrace & ->).
    pose proof (repair_trace_raise gs_check_events gs_form_string
                  (EvGetFileDialog dialog_message gs_dialog_filters) GetFullPath
                  _ _ _ _ gs_check_events_no_error
                  (fun _ r => ltac:(by destruct r as [[| |?] ?])) Htrace) as H.
    destruct o as [[c'|]|e|]; cbn [fst snd log].
    + eexists. split; [reflexivity|]. apply Forall_app. split; [exact H|].
      by repeat constructor.
    + by exists evs.
    + by exists evs.
    + by exists evs.
  - intros p.
    destruct (SetLatexCommand_by_loop fuel p s)
      as (o & s1 & evs & Hg & Hl & Htrace & ->).
    pose proof (repair_trace_raise latex_check_events latex_form_string
                  (EvGetDirectoryDialog dialog_message) id
                  _ _ _ _ latex_check_events_no_error
                  (fun _ r => ltac:(by destruct r as [[| |?] ?])) Htrace) as H.
    destruct o as [[c'|]|e|]; cbn [fst snd log].
    + eexists. split; [reflexivity|]. apply Forall_app. split; [exact H|].
      by repeat constructor.
    + by exists evs.
    + by exists evs.
    + by exists evs.
Qed.

End ValidationKeeps.

(** ** The constructor and the destructor, once more *)

Section MoreConstructorFacts.
Context {W : Type} `{!Host W}.

(** Decoding the list of defaults fills the six persisted fields, whatever
    they held. *)
Lemma GetDefaultParameterList_fills (g : Global) :
  (SetFromParameterList StringToInteger (GetDefaultParameterList IntegerToString ∅) g).2
  = mkGlobal (is_testing_ g) (application_data_path_ g) (l2a_item_last_input_ g)
      (mkFilePath EmptyString) "pdflatex" default_latex_command_options EmptyString
      (bool_of_int (StringToInteger (IntegerToString 1)))
      (bool_of_int (StringToInteger (IntegerToString 1))).
Proof.
  rewrite SetFromParameterList_spec.
  destruct (GetDefaultParameterList_lookup IntegerToString)
    as (H1 & H2 & H3 & H4 & H5 & H6).
  unfold overlay_field. cbn [snd]. by rewrite H1, H2, H3, H4, H5, H6.
Qed.

(** X10: the constructor initializes every field before it reads any: run
    in the same world on two objects with arbitrary contents it ends in the
    same way with the same object, world and log. *)
Theorem Global_ctor_ignores_raw_object (fuel : nat) (g1 g2 : Global) (w : W)
    (l : list event) :
  Global_ctor fuel (mkState g1 w l) = Global_ctor fuel (mkState g2 w l).
Proof.
  assert (Hrun : forall g,
    Global_ctor fuel (mkState g w l)
    = let dw := host_GetApplicationDataDirectory (host_CheckGithubVersion w) in
      (Global_load_settings;; Global_validate fuel)
        (mkState
           (mkGlobal false (AddComponent "LaTeX2AI_application_data.xml" dw.1)
              (AddComponent "LaTeX2AI_last_input.xml" dw.1)
              (mkFilePath EmptyString) "pdflatex" default_latex_command_options
              EmptyString
              (bool_of_int (StringToInteger (IntegerToString 1)))
              (bool_of_int (StringToInteger (IntegerToString 1))))
           (host_CreateDirectoryL2A dw.1 dw.2)
           ((l ++ [EvCheckGithubVersion])
              ++ [EvGetApplicationDataDirectory dw.1; EvCreateDirectoryL2A dw.1]))).
  { intros g. unfold Global_ctor. unfold bind at 1. rewrite Global_set_defaults_run.
    unfold bind at 1. rewrite Global_set_paths_run. cbn [glob world log].
    rewrite GetDefaultParameterList_fills. reflexivity. }
  by rewrite !Hrun.
Qed.

(** The load step on a settings file that can be parsed. *)
Lemma Global_load_settings_run_parsed (s : state W) (w1 w2 : W) (xml_string : string)
    (pl : ParameterList.t) :
  host_IsFile (application_data_path_ (glob s)) (world s) = (true, w1) ->
  host_ReadFileUTF8 (application_data_path_ (glob s)) w1 = (xml_string, w2) ->
  ParameterList_of_xml xml_string = Some pl ->
  let path := application_data_path_ (glob s) in
  let complete := bool_decide (missing_keys pl = []) in
  Global_load_settings s =
  (Ret tt,
   mkState (SetFromParameterList StringToInteger pl (glob s)).2
     (if complete then w2 else host_WarningAlert warning_not_all_loaded w2)
     (log s ++ [EvIsFile path true; EvReadFileUTF8 path xml_string]
        ++ (if complete then [] else [EvWarningAlert warning_not_all_loaded]))).
Proof.
  intros Hfile Hread Hparse path complete.
  unfold Global_load_settings, this, IsFile, ReadFileUTF8, RemoveFile, ParameterList_ctor,
    WarningAlert, call_SetFromParameterList,
    try_catch, l2a_error, raise, call_, call, bind, pure. cbn [glob world log].
  rewrite Hfile. cbn [glob world log]. rewrite Hread, Hparse. cbn [glob world log].
  pose proof (decode_flag StringToInteger pl (glob s)) as Hflag. fold complete in Hflag.
  destruct (SetFromParameterList StringToInteger pl (glob s)) as [set_all g'].
  cbn [fst] in Hflag. subst set_all. cbn [snd].
  destruct complete; cbn; by rewrite <- !app_assoc.
Qed.


(** The load step when there is no settings file. *)
Lemma Global_load_settings_run_absent (s : state W) (w1 : W) :
  host_IsFile (application_data_path_ (glob s)) (world s) = (false, w1) ->
  Global_load_settings s =
  (Ret tt, mkState (glob s) w1 (log s ++ [EvIsFile (application_data_path_ (glob s)) false])).
Proof.
  intros Hfile. unfold Global_load_settings, this, IsFile, call, bind, pure.
  cbn [glob world log]. by rewrite Hfile.
Qed.

(** X12: on a machine without a settings file the constructor reads,
    removes and shows nothing before it turns to the two tools, and it
    does so with the six defaults and the two paths below the application
    data directory in the object. *)
Theorem Global_ctor_without_settings_file (fuel : nat) (s0 : state W)
    (dir : FilePath) (w1 w3 : W) :
  let path := AddComponent "LaTeX2AI_application_data.xml" dir in
  StringToInteger (IntegerToString 1) = 1%Z ->
  host_GetApplicationDataDirectory (host_CheckGithubVersion (world s0)) = (dir, w1) ->
  host_IsFile path (host_CreateDirectoryL2A dir w1) = (false, w3) ->
  exists s2 : state W,
    (Global_set_defaults;; Global_set_paths;; Global_load_settings) s0 = (Ret tt, s2)
    /\ config (glob s2) = default_config
    /\ session (glob s2) = (false, path, AddComponent "LaTeX2AI_last_input.xml" dir)
    /\ world s2 = w3
    /\ log s2 = log s0 ++ [EvCheckGithubVersion;
                           EvGetApplicationDataDirectory dir;
                           EvCreateDirectoryL2A dir;
                           EvIsFile path false]
    /\ Global_ctor fuel s0 = Global_validate fuel s2.
Proof.
  intros path Hone Hdir Hfile.
  pose proof (Global_set_defaults_run s0) as H1.
  rewrite GetDefaultParameterList_fills, Hone in H1. cbn [bool_of_int Z.eqb negb] in H1.
  set (s1 := mkState _ _ _) in H1.
  pose proof (Global_set_paths_run s1) as H2. cbn zeta in H2.
  change (world s1) with (host_CheckGithubVersion (world s0)) in H2.
  rewrite Hdir in H2. cbn [fst snd] in H2. fold path in H2.
  set (s1' := mkState _ _ _) in H2.
  pose proof (Global_load_settings_run_absent s1' w3 Hfile) as H3.
  set (s2 := mkState _ _ _) in H3.
  exists s2. split; [|split; [|split; [|split; [|split]]]]; try reflexivity.
  - unfold bind at 1. rewrite H1. unfold bind at 1. rewrite H2. exact H3.
  - subst s2 s1' s1. cbn. by rewrite <- !app_assoc.
  - unfold Global_ctor. unfold bind at 1. rewrite H1. unfold bind at 1. rewrite H2.
    unfold bind at 1. rewrite H3. reflexivity.
Qed.

End MoreConstructorFacts.

Section SilentValidation.
Context {W : Type} `{!Host W}.

(** A setter whose candidate passes the first check commits it at once. *)
Lemma SetGhostscriptCommand_run_valid (fuel : nat) (c : string) (s s1 : state W) :
  CheckGhostscriptCommand c s = (Ret true, s1) ->
  SetGhostscriptCommand (S fuel) c s =
  (Ret true, mkState (set_gs_command_ c (glob s1)) (world s1)
               (log s1 ++ [EvAssign_gs_command_ c])).
Proof.
  intros Hcheck. unfold SetGhostscriptCommand. cbn zeta.
  cbn [SetGhostscriptCommand_while]. unfold bind at 1. unfold bind at 1.
  rewrite Hcheck. reflexivity.
Qed.

Lemma SetLatexCommand_run_valid (fuel : nat) (p : FilePath) (s s1 : state W) :
  CheckLatexCommand (initial_latex_path p) s = (Ret true, s1) ->
  SetLatexCommand (S fuel) p s =
  (Ret true, mkState (set_latex_bin_path_ (initial_latex_path p) (glob s1)) (world s1)
               (log s1 ++ [EvAssign_latex_bin_path_ (initial_latex_path p)])).
Proof.
  intros Hcheck. unfold SetLatexCommand. cbn zeta.
  change (if WIN_ENV then p else mkFilePath "/Library/TeX/texbin")
    with (initial_latex_path p).
  cbn [SetLatexCommand_while]. unfold bind at 1. unfold bind at 1.
  rewrite Hcheck. reflexivity.
Qed.

(** What a check leaves behind. *)
Lemma CheckGhostscriptCommand_result (c : string) (s s1 : state W) (b : bool) :
  CheckGhostscriptCommand c s = (Ret b, s1) ->
  glob s1 = glob s
  /\ exists evs, log s1 = log s ++ evs /\ gs_check_events c b evs.
Proof.
  rewrite CheckGhostscriptCommand_run. cbn zeta.
  destruct (host_ExecuteCommandLine _ true (world s)) as [r w]. cbn [fst snd].
  intros [= <- <-]. split; [done|]. eexists. split; [done|]. by exists r.
Qed.

Lemma CheckLatexCommand_result (p : FilePath) (s s1 : state W) (b : bool) :
  CheckLatexCommand p s = (Ret b, s1) ->
  glob s1 = glob s
  /\ exists evs, log s1 = log s ++ evs /\ latex_check_events p b evs.
Proof.
  destruct (CheckLatexCommand_check_events p s) as (b' & w & evs & -> & Hevs).
  intros [= <- <-]. split; [done|]. by exists evs.
Qed.

Lemma gs_check_events_prompts c b evs : gs_check_events c b evs -> prompts evs = [].
Proof. by intros (r & -> & _). Qed.

Lemma latex_check_events_prompts p b evs : latex_check_events p b evs -> prompts evs = [].
Proof.
  intros (d & H). destruct (command_latex d p).
  - by destruct H as (r & _ & ->).
  - by destruct H as (_ & ->).
Qed.

Lemma prompts_app (a b : list event) : prompts (a ++ b) = prompts a ++ prompts b.
Proof. apply List.filter_app. Qed.

(** X13: when the stored renderer command and the stored typesetting path
    both pass their checks, the validating part of the constructor cleans
    the temporary directory, runs the two checks and returns: the renderer
    is not searched for, the user is asked nothing, nothing is assigned
    and the object is as it was, whatever the fuel. *)
Theorem Global_validate_silent_when_valid (fuel : nat) (s s1 s2 : state W) :
  let s0 := mkState (glob s) (host_ClearTemporaryDirectory (world s))
              (log s ++ [EvClearTemporaryDirectory]) in
  CheckGhostscriptCommand (gs_command_ (glob s)) s0 = (Ret true, s1) ->
  CheckLatexCommand (latex_bin_path_ (glob s)) s1 = (Ret true, s2) ->
  Global_validate fuel s = (Ret tt, s2)
  /\ glob s2 = glob s
  /\ exists evs_gs evs_latex,
       log s2 = log s ++ [EvClearTemporaryDirectory] ++ evs_gs ++ evs_latex
       /\ gs_check_events (gs_command_ (glob s)) true evs_gs
       /\ latex_check_events (latex_bin_path_ (glob s)) true evs_latex
       /\ prompts ([EvClearTemporaryDirectory] ++ evs_gs ++ evs_latex) = [].
Proof.
  intros s0 Hgs Hlatex.
  destruct (CheckGhostscriptCommand_result _ _ _ _ Hgs) as (Hg1 & evs1 & Hl1 & He1).
  destruct (CheckLatexCommand_result _ _ _ _ Hlatex) as (Hg2 & evs2 & Hl2 & He2).
  split; [|split].
  - unfold Global_validate, ClearTemporaryDirectory, call_, call. unfold bind at 1.
    cbn zeta. fold s0. unfold bind at 1.
    unfold Global_check_gs, this. unfold bind at 1. unfold bind at 1.
    change (glob s0) with (glob s). rewrite Hgs. cbn [negb]. unfold pure at 1.
    unfold Global_check_latex, this. unfold bind at 1. unfold bind at 1.
    rewrite Hg1. change (glob s0) with (glob s). rewrite Hlatex. reflexivity.
  - by rewrite Hg2, Hg1.
  - exists evs1, evs2. split; [rewrite Hl2, Hl1; cbn [log s0]; by rewrite <- !app_assoc|].
    split; [done|]. split; [done|].
    by rewrite !prompts_app, (gs_check_events_prompts _ _ _ He1),
      (latex_check_events_prompts _ _ _ He2).
Qed.

(** X14: when the stored renderer command fails its check and the command
    found on the machine passes, the constructor stores the found command
    without asking the user anything and goes on to the typesetting
    step. *)
Theorem Global_validate_discovers_renderer (fuel : nat) (s s1 s2 s3 : state W)
    (discovered : string) :
  let s0 := mkState (glob s) (host_ClearTemporaryDirectory (world s))
              (log s ++ [EvClearTemporaryDirectory]) in
  CheckGhostscriptCommand (gs_command_ (glob s)) s0 = (Ret false, s1) ->
  GetGhostScriptCommand s1 = (Ret discovered, s2) ->
  CheckGhostscriptCommand discovered s2 = (Ret true, s3) ->
  let s4 := mkState (set_gs_command_ discovered (glob s)) (world s3)
              (log s3 ++ [EvAssign_gs_command_ discovered]) in
  Global_validate (S fuel) s = Global_check_latex (S fuel) s4
  /\ exists evs, log s4 = log s ++ evs
       /\ prompts evs = []
       /\ assignments evs = [EvAssign_gs_command_ discovered].
Proof.
  intros s0 Hstored Hfind Hfound s4.
  destruct (CheckGhostscriptCommand_result _ _ _ _ Hstored) as (Hg1 & evs1 & Hl1 & He1).
  destruct (GetGhostScriptCommand_frame _ _ _ Hfind) as (Hg2 & ev2 & Hl2 & _).
  destruct (CheckGhostscriptCommand_result _ _ _ _ Hfound) as (Hg3 & evs3 & Hl3 & He3).
  assert (Hev2 : ev2 = EvGetGhostScriptCommand discovered).
  { revert Hfind Hl2. unfold GetGhostScriptCommand, call.
    destruct (host_GetGhostScriptCommand (world s1)) as [c w]. intros [= -> <-]. cbn.
    intros Heq. apply app_inv_head in Heq. by injection Heq as <-. }
  split.
  - unfold Global_validate, ClearTemporaryDirectory, call_, call. unfold bind at 1.
    cbn zeta. fold s0. unfold bind at 1.
    unfold Global_check_gs, this. unfold bind at 1. unfold bind at 1.
    change (glob s0) with (glob s). rewrite Hstored. cbn [negb]. unfold bind at 1.
    rewrite Hfind. rewrite (SetGhostscriptCommand_run_valid fuel _ _ _ Hfound).
    subst s4. by rewrite Hg3, Hg2, Hg1.
  - exists ([EvClearTemporaryDirectory] ++ evs1 ++ [ev2] ++ evs3
              ++ [EvAssign_gs_command_ discovered]).
    split; [cbn [log s4]; rewrite Hl3, Hl2, Hl1; cbn [log s0]; by rewrite <- !app_assoc|].
    destruct He1 as (r1 & -> & _). destruct He3 as (r3 & -> & _). by subst ev2.
Qed.

(** X15: when the stored typesetting path fails its check and the path the
    repair-setter starts with passes (on Windows the empty path, that is
    the [pdflatex] found by the system, elsewhere [/Library/TeX/texbin]),
    the constructor stores that path without asking the user anything and
    returns. *)
Theorem Global_validate_falls_back_on_default_path (fuel : nat)
    (s s4 s5 s7 : state W) :
  let s0 := mkState (glob s) (host_ClearTemporaryDirectory (world s))
              (log s ++ [EvClearTemporaryDirectory]) in
  let empty := mkFilePath EmptyString in
  let s6 := mkState (set_latex_bin_path_ empty (glob s5)) (world s5)
              (log s5 ++ [EvAssign_latex_bin_path_ empty]) in
  Global_check_gs (S fuel) s0 = (Ret true, s4) ->
  CheckLatexCommand (latex_bin_path_ (glob s4)) s4 = (Ret false, s5) ->
  CheckLatexCommand (initial_latex_path empty) s6 = (Ret true, s7) ->
  Global_validate (S fuel) s =
    (Ret tt, mkState (set_latex_bin_path_ (initial_latex_path empty) (glob s4)) (world s7)
               (log s7 ++ [EvAssign_latex_bin_path_ (initial_latex_path empty)]))
  /\ exists evs, log s7 = log s4 ++ evs /\ prompts evs = [].
Proof.
  intros s0 empty s6 Hgs Hstored Hdefault.
  destruct (CheckLatexCommand_result _ _ _ _ Hstored) as (Hg5 & evs5 & Hl5 & He5).
  destruct (CheckLatexCommand_result _ _ _ _ Hdefault) as (Hg7 & evs7 & Hl7 & He7).
  split.
  - unfold Global_validate, ClearTemporaryDirectory, call_, call. unfold bind at 1.
    cbn zeta. fold s0. unfold bind at 1. rewrite Hgs.
    unfold Global_check_latex, this. unfold bind at 1. unfold bind at 1.
    rewrite Hstored. cbn [negb].
    unfold assign_latex_bin_path_, modify, record, bind, pure. cbn [glob world log].
    fold empty. fold s6.
    change (latex_bin_path_ (set_latex_bin_path_ empty (glob s5))) with empty.
    rewrite (SetLatexCommand_run_valid fuel _ _ _ Hdefault).
    rewrite Hg7. cbn [glob s6]. rewrite Hg5. by destruct (glob s4).
  - exists (evs5 ++ [EvAssign_latex_bin_path_ empty] ++ evs7).
    split; [rewrite Hl7; cbn [log s6]; rewrite Hl5; by rewrite <- !app_assoc|].
    by rewrite !prompts_app, (latex_check_events_prompts _ _ _ He5),
      (latex_check_events_prompts _ _ _ He7).
Qed.

End SilentValidation.


Section FilesAndConstruction.
Context {W : Type} `{!Host W}.



(** X17: saving and loading.  The destructor writes what [ToString] gives,
    and only that, to the settings file.  When the file is read back as it
    was written and the codec parses what it has printed, the load step,
    run on any object that has the path of the file, brings back the six
    fields as they were saved, without a warning and without removing the
    file.  The two integer conversions are assumed inverse to each other on
    [0] and [1]. *)
Theorem Global_dtor_then_load (g g0 : Global) (w w2 w3 w4 : W) (l l2 : list event) :
  let path := application_data_path_ g in
  StringToInteger (IntegerToString 0) = 0%Z ->
  StringToInteger (IntegerToString 1) = 1%Z ->
  ParameterList_of_xml (ToString g) = Some (ToParameterList IntegerToString g ∅) ->
  application_data_path_ g0 = path ->
  host_IsFile path w2 = (true, w3) ->
  host_ReadFileUTF8 path w3 = (ToString g, w4) ->
  Global_dtor (mkState g w l)
  = (Ret tt, mkState g (host_WriteFileUTF8 path (ToString g) true w)
               (l ++ [EvWriteFileUTF8 path (ToString g) true]))
  /\ exists g',
       Global_load_settings (mkState g0 w2 l2)
       = (Ret tt, mkState g' w4
                    (l2 ++ [EvIsFile path true; EvReadFileUTF8 path (ToString g)]))
       /\ config g' = config g
       /\ session g' = session g0.
Proof.
  intros path Hzero Hone Hcodec Hpath Hfile Hread. split; [reflexivity|].
  assert (Hbool : forall b : bool,
             bool_of_int (StringToInteger (IntegerToString (Z.b2z b))) = b).
  { intros [|]; cbn [Z.b2z]; [rewrite Hone | rewrite Hzero]; reflexivity. }
  pose proof (Global_load_settings_run_parsed (mkState g0 w2 l2) w3 w4 (ToString g)
                (ToParameterList IntegerToString g ∅)) as Hload.
  cbn [glob world log] in Hload. rewrite Hpath in Hload. fold path in Hload.
  specialize (Hload Hfile Hread Hcodec). cbn zeta in Hload.
  destruct (ToParameterList_lookup IntegerToString g ∅) as (H1 & H2 & H3 & H4 & H5 & H6).
  cbn zeta in H1, H2, H3, H4, H5, H6.
  assert (Hcomplete :
            bool_decide (missing_keys (ToParameterList IntegerToString g ∅) = []) = true).
  { rewrite <- (decode_flag StringToInteger _ g0), SetFromParameterList_spec.
    unfold OptionExists. cbn [forallb recognized_keys fst].
    by rewrite H1, H2, H3, H4, H5, H6. }
  rewrite Hcomplete, app_nil_r in Hload.
  rewrite SetFromParameterList_spec in Hload. unfold overlay_field in Hload.
  cbn [snd] in Hload. rewrite H1, H2, H3, H4, H5, H6, !Hbool in Hload.
  eexists. split; [exact Hload|]. split; [|reflexivity].
  unfold config. cbn. by destruct (latex_bin_path_ g).
Qed.

End FilesAndConstruction.

(** ** The accessors, once more *)

(** X18: the accessor of the plug-in checks the pointer to the object and
    not the pointer to the plug-in: once the object exists it dereferences
    the plug-in pointer as it is, so that with a null plug-in pointer the
    call neither throws nor returns a reference, while the two accessors of
    the object return the object. *)
Theorem accessors_after_construction {L2APlugin : Type} (ps : @pointers L2APlugin)
    (g : Global) :
  _l2a_global ps = Some g ->
  Global_accessor ps = Reference g
  /\ GlobalMutable ps = Reference g
  /\ GlobalPluginMutable ps =
     match _l2a_plugin ps with
     | Some plugin => Reference plugin
     | None => Undefined
     end.
Proof.
  intros Hg. unfold Global_accessor, GlobalMutable, GlobalPluginMutable, CheckGlobal, deref.
  rewrite Hg. done.
Qed.

(** ** More runs in the scripted environment *)

Module MoreRuns.
Import TestHost Scenario Scenario2.

Lemma GetDefaultParameterList_decodes_witness :
  of_decimal (decimal 1) = 1%Z
  /\ SetFromParameterList of_decimal (GetDefaultParameterList decimal ∅) raw
     = (true, with_defaults raw).
Proof.
  split; [reflexivity|].
  exact (proj2 (GetDefaultParameterList_decodes decimal of_decimal eq_refl raw)).
Defined.

Lemma SetFromParameterList_ignores_other_keys_witness :
  agree_on_recognized_keys five_keys five_keys_and_more
  /\ SetFromParameterList of_decimal five_keys fresh
     = SetFromParameterList of_decimal five_keys_and_more fresh.
Proof.
  assert (Hagree : agree_on_recognized_keys five_keys five_keys_and_more).
  { intros key Hin. unfold five_keys_and_more. symmetry. apply lookup_insert_ne.
    intros <-. vm_compute in Hin.
    repeat (apply elem_of_cons in Hin as [Hin|Hin]; [discriminate Hin|]).
    by apply elem_of_nil in Hin. }
  split; [exact Hagree|].
  exact (SetFromParameterList_ignores_other_keys of_decimal _ _ fresh Hagree).
Defined.

Lemma ToParameterList_injective_on_config_witness :
  of_decimal (decimal 0) = 0%Z /\ of_decimal (decimal 1) = 1%Z
  /\ config sample = config sample_elsewhere
  /\ ToParameterList decimal sample ∅ = ToParameterList decimal sample_elsewhere ∅.
Proof.
  split; [reflexivity|]. split; [reflexivity|]. split; [reflexivity|].
  exact (proj2 (ToParameterList_injective_on_config decimal of_decimal eq_refl eq_refl
                  sample sample_elsewhere) eq_refl).
Defined.

Lemma repair_setters_store_last_pick_witness :
  let s := start fresh third_time_lucky in
  let s' := (SetGhostscriptCommand 5 "gs" s).2 in
  SetGhostscriptCommand 5 "gs" s = (Ret true, s')
  /\ exists evs, log s' = log s ++ evs
       /\ gs_command_ (glob s') = match last (picks evs) with
                                  | Some p => GetFullPath p
                                  | None => "gs"
                                  end.
Proof.
  intros s s'.
  assert (Hrun : SetGhostscriptCommand 5 "gs" s = (Ret true, s'))
    by (vm_compute; reflexivity).
  split; [exact Hrun|].
  exact (proj1 (repair_setters_store_last_pick 5 s) "gs" s' Hrun).
Defined.


Lemma Global_ctor_without_settings_file_witness :
  let s0 := start raw tools_installed in
  exists s2 : state TestWorld,
    (Global_set_defaults;; Global_set_paths;; Global_load_settings) s0 = (Ret tt, s2)
    /\ config (glob s2) = default_config
    /\ Global_ctor 3 s0 = Global_validate 3 s2.
Proof.
  intros s0.
  destruct (Global_ctor_without_settings_file 3 s0 (mkFilePath "appdata")
              tools_installed tools_installed)
    as (s2 & Hrun & Hconfig & _ & _ & _ & Hrest); [vm_compute; reflexivity ..|].
  exists s2. split; [exact Hrun|]. split; [exact Hconfig | exact Hrest].
Defined.

Lemma Global_validate_silent_when_valid_witness :
  let s := start sample tools_installed in
  let s0 := mkState sample tools_installed [EvClearTemporaryDirectory] in
  let s1 := (CheckGhostscriptCommand gs_exe s0).2 in
  let s2 := (CheckLatexCommand (mkFilePath "C:/texlive/bin") s1).2 in
  CheckGhostscriptCommand gs_exe s0 = (Ret true, s1)
  /\ CheckLatexCommand (mkFilePath "C:/texlive/bin") s1 = (Ret true, s2)
  /\ Global_validate 0 s = (Ret tt, s2)
  /\ glob s2 = sample.
Proof.
  intros s s0 s1 s2.
  assert (H1 : CheckGhostscriptCommand (gs_command_ (glob s)) s0 = (Ret true, s1))
    by (vm_compute; reflexivity).
  assert (H2 : CheckLatexCommand (latex_bin_path_ (glob s)) s1 = (Ret true, s2))
    by (vm_compute; reflexivity).
  split; [exact H1|]. split; [exact H2|].
  destruct (Global_validate_silent_when_valid 0 s s1 s2 H1 H2) as (Hrun & Hglob & _).
  split; [exact Hrun | exact Hglob].
Defined.

Lemma Global_validate_discovers_renderer_witness :
  let s := start fresh tools_installed in
  let s0 := mkState fresh tools_installed [EvClearTemporaryDirectory] in
  let s1 := (CheckGhostscriptCommand EmptyString s0).2 in
  let s2 := (GetGhostScriptCommand s1).2 in
  let s3 := (CheckGhostscriptCommand gs_exe s2).2 in
  CheckGhostscriptCommand EmptyString s0 = (Ret false, s1)
  /\ GetGhostScriptCommand s1 = (Ret gs_exe, s2)
  /\ CheckGhostscriptCommand gs_exe s2 = (Ret true, s3)
  /\ Global_validate 1 s
     = Global_check_latex 1
         (mkState (set_gs_command_ gs_exe fresh) (world s3)
            (log s3 ++ [EvAssign_gs_command_ gs_exe])).
Proof.
  intros s s0 s1 s2 s3.
  assert (H1 : CheckGhostscriptCommand (gs_command_ (glob s)) s0 = (Ret false, s1))
    by (vm_compute; reflexivity).
  assert (H2 : GetGhostScriptCommand s1 = (Ret gs_exe, s2)) by (vm_compute; reflexivity).
  assert (H3 : CheckGhostscriptCommand gs_exe s2 = (Ret true, s3))
    by (vm_compute; reflexivity).
  split; [exact H1|]. split; [exact H2|]. split; [exact H3|].
  exact (proj1 (Global_validate_discovers_renderer 0 s s1 s2 s3 gs_exe H1 H2 H3)).
Defined.

Lemma Global_validate_falls_back_on_default_path_witness :
  let s := start wrong_tex_path tools_installed in
  let s0 := mkState wrong_tex_path tools_installed [EvClearTemporaryDirectory] in
  let s4 := (Global_check_gs 1 s0).2 in
  let s5 := (CheckLatexCommand (mkFilePath "C:/nowhere") s4).2 in
  let s6 := mkState (set_latex_bin_path_ (mkFilePath EmptyString) (glob s5)) (world s5)
              (log s5 ++ [EvAssign_latex_bin_path_ (mkFilePath EmptyString)]) in
  let s7 := (CheckLatexCommand (mkFilePath EmptyString) s6).2 in
  Global_check_gs 1 s0 = (Ret true, s4)
  /\ CheckLatexCommand (mkFilePath "C:/nowhere") s4 = (Ret false, s5)
  /\ CheckLatexCommand (mkFilePath EmptyString) s6 = (Ret true, s7)
  /\ (Global_validate 1 s).1 = Ret tt
  /\ latex_bin_path_ (glob (Global_validate 1 s).2) = mkFilePath EmptyString.
Proof.
  intros s s0 s4 s5 s6 s7.
  assert (H1 : Global_check_gs 1 s0 = (Ret true, s4)) by (vm_compute; reflexivity).
  assert (H2 : CheckLatexCommand (latex_bin_path_ (glob s4)) s4 = (Ret false, s5))
    by (vm_compute; reflexivity).
  assert (H3 : CheckLatexCommand (initial_latex_path (mkFilePath EmptyString)) s6
               = (Ret true, s7)) by (vm_compute; reflexivity).
  split; [exact H1|]. split; [exact H2|]. split; [exact H3|].
  rewrite (proj1 (Global_validate_falls_back_on_default_path 0 s s4 s5 s7 H1 H2 H3)).
  split; reflexivity.
Defined.

Lemma Global_dtor_then_load_witness :
  let path := mkFilePath "appdata/LaTeX2AI_application_data.xml" in
  let saved := host_WriteFileUTF8 (Host := TestCodec.host_with_codec) path
                 (ToString (Host0 := TestCodec.host_with_codec) sample) true
                 tools_installed in
  ParameterList_of_xml (Host := TestCodec.host_with_codec)
    (ToString (Host0 := TestCodec.host_with_codec) sample)
  = Some (ToParameterList decimal sample ∅)
  /\ exists g',
       (Global_load_settings (Host0 := TestCodec.host_with_codec) (start fresh saved)).1
       = Ret tt
       /\ glob (Global_load_settings (Host0 := TestCodec.host_with_codec)
                  (start fresh saved)).2 = g'
       /\ config g' = config sample.
Proof.
  intros path saved.
  assert (Hcodec : ParameterList_of_xml (Host := TestCodec.host_with_codec)
                     (ToString (Host0 := TestCodec.host_with_codec) sample)
                   = Some (ToParameterList decimal sample ∅))
    by (apply (bool_decide_unpack _); vm_compute; exact I).
  split; [exact Hcodec|].
  destruct (Global_dtor_then_load (Host0 := TestCodec.host_with_codec)
              sample fresh tools_installed saved saved saved [] [])
    as (_ & g' & Hload & Hconfig & _);
    [reflexivity | reflexivity | exact Hcodec | reflexivity
     | vm_compute; reflexivity | vm_compute; reflexivity |].
  exists g'. unfold start. rewrite Hload. auto.
Defined.

Lemma accessors_after_construction_witness :
  let ps := mkPointers (L2APlugin := unit) (Some sample) None in
  _l2a_global ps = Some sample
  /\ GlobalMutable ps = Reference sample
  /\ GlobalPluginMutable ps = Undefined.
Proof.
  intros ps. split; [reflexivity|].
  destruct (accessors_after_construction ps sample eq_refl) as (_ & Hobject & Hplugin).
  split; [exact Hobject | exact Hplugin].
Defined.

(** The file dialog fails: the setter throws and nothing is stored. *)
Example dialog_error_is_thrown :
  let res := SetGhostscriptCommand 5 "gs" (start fresh broken_dialog) in
  res.1 = Raise dialog_exception
  /\ glob res.2 = fresh
  /\ last (log res.2)
     = Some (EvGetFileDialog dialog_message gs_dialog_filters (mkFilePath "gs")
               (kOtherErr 7, mkFilePath "gs")).
Proof. vm_compute. repeat split; reflexivity. Qed.

(** On a build that is not for Windows the typesetting setter starts with
    [/Library/TeX/texbin], whatever it is given. *)
Example texbin_is_probed_elsewhere :
  let res := SetLatexCommand (Host0 := elsewhere) 1 (mkFilePath "C:/texlive/bin")
               (start fresh tools_installed) in
  head (log res.2) = Some (EvIsDirectory (mkFilePath "/Library/TeX/texbin") false).
Proof. vm_compute. reflexivity. Qed.

End MoreRuns.
